(** * A shallow embedding of the vCard cleaner ([vcf/utils/models.py],
    [vcf/io.py]; [vcf.py] repeats both) and the properties of its parser
    and serializer.

    Python [str] values are Rocq strings.  The character classes that the
    program relies on ([\w], [.], [str.strip], [str.upper], the class
    [[^+0-9]]) are those of Python on the ASCII range, which is the range
    this embedding covers; a character above 127 is read as an ordinary
    symbol (no letter, no digit, no blank).

    Python [set] values are [gset]s.  The order in which Python enumerates
    a set is not fixed by the language: it is a parameter of the embedding
    (class [SetIteration]), constrained only to list every element once.
    One such order enumerates two sets with the same elements alike, which
    Python need not do for two set objects: a statement that compares the
    texts written by two cleanings gives each cleaning an order of its own,
    and a statement on ASCII classes ([\w], blanks) that is to hold of
    every line says that the line is ASCII ([ascii_text]).

    Reading and writing files is left out: [parse_vcf_file] starts from the
    content read, [write_contacts_to_vcf_file] returns the content written.
    Raised exceptions are values of [result]; what the program prints is
    left out. *)

From Stdlib Require Import Ascii String ZArith Sorted Permutation.
From stdpp Require Import base list gmap sets strings countable sorting.

(** ** Characters and strings as Python sees them *)

Definition LF : ascii := "010"%char.
Definition nl : string := String LF "".

Definition code (c : ascii) : N := N_of_ascii c.

Definition in_range (lo hi : N) (c : ascii) : bool :=
  ((lo <=? code c) && (code c <=? hi))%N.

(** [0-9] *)
Definition is_digit (c : ascii) : bool := in_range 48 57 c.

(** [\w] on ASCII: letters, digits and the underscore. *)
Definition is_word (c : ascii) : bool :=
  in_range 97 122 c || in_range 65 90 c || is_digit c || (code c =? 95)%N.

(** [.] without DOTALL: anything but the line feed. *)
Definition is_dot (c : ascii) : bool := negb (Ascii.eqb c LF).

(** [str.isspace] on ASCII: TAB, LF, VT, FF, CR, FS, GS, RS, US, space. *)
Definition is_space (c : ascii) : bool :=
  in_range 9 13 c || in_range 28 32 c.

Definition upper_char (c : ascii) : ascii :=
  if in_range 97 122 c then ascii_of_N (code c - 32) else c.

(** [s.upper()] *)
Fixpoint upper (s : string) : string :=
  match s with
  | "" => ""
  | String c s' => String (upper_char c) (upper s')
  end.

Fixpoint filter_chars (p : ascii -> bool) (s : string) : string :=
  match s with
  | "" => ""
  | String c s' => if p c then String c (filter_chars p s') else filter_chars p s'
  end.

Fixpoint forallb_chars (p : ascii -> bool) (s : string) : bool :=
  match s with
  | "" => true
  | String c s' => p c && forallb_chars p s'
  end.

Fixpoint lstrip (s : string) : string :=
  match s with
  | "" => ""
  | String c s' => if is_space c then lstrip s' else s
  end.

Fixpoint rstrip (s : string) : string :=
  match s with
  | "" => ""
  | String c s' =>
      let r := rstrip s' in
      if is_space c && String.eqb r "" then "" else String c r
  end.

(** [s.strip()] *)
Definition strip (s : string) : string := rstrip (lstrip s).

(** [s.startswith(p)] *)
Definition startswith (s p : string) : bool := String.prefix p s.

(** [s.split(sep)] for a one-character separator: one piece more than
    there are separators, and [""] gives [[""]]. *)
Fixpoint split (sep : ascii) (s : string) : list string :=
  match s with
  | "" => [""]
  | String c s' =>
      if Ascii.eqb c sep then "" :: split sep s'
      else match split sep s' with
           | h :: t => String c h :: t
           | [] => [String c ""]
           end
  end.

(** [sep.join(l)] *)
Definition join (sep : string) (l : list string) : string := String.concat sep l.

(** [sorted(l)] on strings: Python orders strings by code point,
    lexicographically; the sort is stable. *)
Fixpoint insert_sorted (x : string) (l : list string) : list string :=
  match l with
  | [] => [x]
  | y :: l' => if String.leb x y then x :: l else y :: insert_sorted x l'
  end.

Fixpoint sorted (l : list string) : list string :=
  match l with
  | [] => []
  | x :: l' => insert_sorted x (sorted l')
  end.

(** ** The regular expressions of the program

    The three patterns of the source use literals and capture groups
    around one quantified character class.  [re_match] is [re.match]:
    anchored at the start of the line only, trying the alternatives of
    each quantifier in the order of a backtracking matcher (a greedy [+]
    longest first, a lazy star shortest first) and answering with the groups
    of the first success. *)

Inductive charclass := CWord | CDot.

Definition in_class (k : charclass) : ascii -> bool :=
  match k with CWord => is_word | CDot => is_dot end.

Inductive quantifier := GreedyPlus | LazyStar.

Inductive node :=
| Lit (s : string)
| Group (k : charclass) (q : quantifier).

Definition regex := list node.

Fixpoint strip_prefix (p s : string) : option string :=
  match p, s with
  | "", _ => Some s
  | String a p', String b s' => if Ascii.eqb a b then strip_prefix p' s' else None
  | String _ _, "" => None
  end.

Section Quantifiers.
Variable p : ascii -> bool.
Variable k : string -> option (list string).

(** zero or more, longest first *)
Fixpoint greedy_star (s : string) : option (string * list string) :=
  let stop := match k s with Some gs => Some ("", gs) | None => None end in
  match s with
  | String c s' =>
      if p c then
        match greedy_star s' with
        | Some (g, gs) => Some (String c g, gs)
        | None => stop
        end
      else stop
  | "" => stop
  end.

(** one or more, longest first *)
Definition greedy_plus (s : string) : option (string * list string) :=
  match s with
  | String c s' =>
      if p c then
        match greedy_star s' with
        | Some (g, gs) => Some (String c g, gs)
        | None => None
        end
      else None
  | "" => None
  end.

(** zero or more, shortest first *)
Fixpoint lazy_star (s : string) : option (string * list string) :=
  match k s with
  | Some gs => Some ("", gs)
  | None =>
      match s with
      | String c s' =>
          if p c then
            match lazy_star s' with
            | Some (g, gs) => Some (String c g, gs)
            | None => None
            end
          else None
      | "" => None
      end
  end.
End Quantifiers.

Fixpoint re_match (r : regex) : string -> option (list string) :=
  match r with
  | [] => fun _ => Some []
  | Lit l :: r' =>
      fun s => match strip_prefix l s with
               | Some s' => re_match r' s'
               | None => None
               end
  | Group c q :: r' =>
      fun s =>
        let run := match q with
                   | GreedyPlus => greedy_plus (in_class c) (re_match r') s
                   | LazyStar => lazy_star (in_class c) (re_match r') s
                   end in
        match run with
        | Some (g, gs) => Some (g :: gs)
        | None => None
        end
  end.

(** ** Errors and sets *)

Inductive exn := ValueError (msg : string).

Inductive result (A : Type) :=
| Return (a : A)
| Raise (e : exn).
Arguments Return {A} a.
Arguments Raise {A} e.

(** The order in which a Python [set] is enumerated ([for x in s],
    [",".join(s)], [list.extend(s)]): some list of the elements, each once. *)
Class SetIteration := {
  set_iter : forall `{Countable A}, gset A -> list A;
  set_iter_perm : forall `{Countable A} (X : gset A), set_iter X ≡ₚ elements X
}.

(** One such order, to run the program on concrete inputs. *)
Definition elements_order : SetIteration :=
  {| set_iter := fun A _ _ X => elements X;
     set_iter_perm := fun A _ _ X => reflexivity (elements X) |}.

(** ** class PhoneNumber *)

Module PhoneNumber.

Record t := mk { number : string; phone_type : string }.

Definition __default_type : string := "CELL".
Definition __phone_line : string := "TEL;".
Definition __type_line : string := "TYPE=".
(** [__phone_line + __type_line + r"(\w+):(.+)"] *)
Definition __phone_pattern : regex :=
  [Lit __phone_line; Lit __type_line; Group CWord GreedyPlus; Lit ":";
   Group CDot GreedyPlus].
Definition __number_hash : Z := 37.
Definition __type_hash : Z := 7.

Definition __str__ (self : t) : string :=
  __phone_line +:+ __type_line +:+ phone_type self +:+ ":" +:+ number self.

Definition __eq__ (self other : t) : bool :=
  let number_equal := String.eqb (number self) (number other) in
  let phone_equal := String.eqb (phone_type self) (phone_type other) in
  number_equal && phone_equal.

(** [hash] is Python's hash of a string, whatever it is in the running
    process. *)
Definition __hash__ (hash : string -> Z) (self : t) : Z :=
  let num_hash := (hash (number self) * __number_hash)%Z in
  let type_hash := (hash (phone_type self) * __type_hash)%Z in
  (num_hash + type_hash)%Z.

(** The class attribute [__types], to which every parsed type is added,
    is never read by the program and is left out. *)
Definition from_vcf_line (line : string) (preserve_type : bool) : result t :=
  match re_match __phone_pattern line with
  | None => Raise (ValueError "No line matched")
  | Some groups =>
      match groups !! 0%nat, groups !! 1%nat with
      | Some g0, Some g1 =>
          let phone_type := upper g0 in
          let phone_number := filter_chars (fun c => Ascii.eqb c "+" || is_digit c) g1 in
          let phone_type := if negb preserve_type then __default_type else phone_type in
          Return (mk phone_number phone_type)
      | _, _ => Raise (ValueError "Not enough info in the line")
      end
  end.

Global Instance eq_dec : EqDecision t.
Proof. solve_decision. Defined.

Global Instance countable : Countable t :=
  inj_countable' (fun p => (number p, phone_type p))
                 (fun '(n, ty) => mk n ty)
                 (fun p => match p with mk _ _ => eq_refl end).

End PhoneNumber.

(** ** class VCFContact *)

Module VCFContact.

Record t := mk {
  phones : gset PhoneNumber.t;
  other_info : gset string;
  categories : gset string;
  prefix : string;
  first_name : string;
  surname : string;
  middle_name : string;
  suffix : string
}.

Definition __contact_begin : string := "BEGIN:VCARD".
Definition __contact_end : string := "END:VCARD".
Definition __vcf_version : string := "VERSION:".
Definition __category : string := "CATEGORIES:".
Definition __category_separator : ascii := ","%char.
(** [__category + r"(.+)"] *)
Definition __category_pattern : regex := [Lit __category; Group CDot GreedyPlus].
Definition __full_name : string := "FN:".
Definition __name : string := "N:".
Definition __name_part_pattern : node := Group CDot LazyStar.
(** ["%s;%s;%s;%s;%s" % (a, b, c, d, e)] *)
Definition __name_pattern_replacement {A} (lit : string -> A) (a b c d e : A) : list A :=
  [a; lit ";"; b; lit ";"; c; lit ";"; d; lit ";"; e].
Definition __name_pattern : regex :=
  Lit __name ::
  __name_pattern_replacement Lit
    __name_part_pattern __name_part_pattern __name_part_pattern
    __name_part_pattern __name_part_pattern.
Definition __phone : string := "TEL;".

Definition __init__ : t := mk ∅ ∅ ∅ "" "" "" "" "".

Definition full_name_parts (self : t) : list string :=
  [prefix self; first_name self; middle_name self; surname self; suffix self].

Definition name_parts (self : t) : list string :=
  [surname self; first_name self; middle_name self; prefix self; suffix self].

Definition full_name (self : t) : string :=
  join " " (List.filter (fun part => negb (String.eqb (strip part) ""))
                        (full_name_parts self)).

Definition get_full_name_line (self : t) : string :=
  __full_name +:+ full_name self.

Definition get_name_line (self : t) : string :=
  match name_parts self with
  | [a; b; c; d; e] =>
      __name +:+ join "" (__name_pattern_replacement id a b c d e)
  | _ => __name
  end.

Definition is_end_of_contact (line : string) : bool :=
  String.eqb line __contact_end.

Definition is_start_of_contact (line : string) : bool :=
  String.eqb line __contact_begin.

Definition is_version_line (line : string) : bool :=
  startswith line __vcf_version.

Definition is_service_line (line : string) : bool :=
  let is_start := is_start_of_contact line in
  let is_end := is_end_of_contact line in
  let is_version := is_version_line line in
  is_start || is_end || is_version.

Definition is_phone_line (line : string) : bool := startswith line __phone.
Definition is_category_line (line : string) : bool := startswith line __category.
Definition is_name_line (line : string) : bool := startswith line __name.
Definition is_full_name_line (line : string) : bool := startswith line __full_name.

Definition add_name (self : t) (line : string) : t :=
  match re_match __name_pattern line with
  | None => self
  | Some groups =>
      match groups with
      | [surname; first_name; middle_name; prefix; suffix] =>
          mk (phones self) (other_info self) (categories self)
             prefix first_name surname middle_name suffix
      | _ => self
      end
  end.

Definition add_category (self : t) (line : string) : t :=
  match re_match __category_pattern line with
  | None => self
  | Some groups =>
      match groups !! 0%nat with
      | None => self
      | Some categories0 =>
          let categories1 := split __category_separator categories0 in
          mk (phones self) (other_info self)
             (categories self ∪ list_to_set categories1)
             (prefix self) (first_name self) (surname self)
             (middle_name self) (suffix self)
      end
  end.

Definition add_phone (self : t) (line : string) : t :=
  match PhoneNumber.from_vcf_line line false with
  | Raise (ValueError _) => self
  | Return phone =>
      mk ({[ phone ]} ∪ phones self) (other_info self) (categories self)
         (prefix self) (first_name self) (surname self)
         (middle_name self) (suffix self)
  end.

Definition add_line (self : t) (line : string) : t :=
  if is_service_line line then self
  else if is_name_line line then add_name self line
  else if is_phone_line line then add_phone self line
  else if is_category_line line then add_category self line
  else if is_full_name_line line then self
  else mk (phones self) ({[ line ]} ∪ other_info self) (categories self)
          (prefix self) (first_name self) (surname self)
          (middle_name self) (suffix self).

(** [version_1f] is the text ["%.1f" % version] of the float argument. *)
Definition get_version (version_1f : string) : string :=
  __vcf_version +:+ version_1f.

Definition is_empty (self : t) : bool := Nat.eqb (size (phones self)) 0.

Section Serialize.
Context `{!SetIteration}.

Definition get_sorted_phones (self : t) : list string :=
  sorted (PhoneNumber.__str__ <$> set_iter (phones self)).

Definition get_categories (self : t) : option string :=
  if decide (categories self = ∅) then None
  else Some (__category +:+
             join (String __category_separator "") (set_iter (categories self))).

(** [if categories:] on a value that is [None] or a string. *)
Definition truthy (v : option string) : bool :=
  match v with
  | None => false
  | Some s => negb (String.eqb s "")
  end.

Definition _to_vcf (self : t) (version_1f : string) (include_other_info : bool) : string :=
  let vcf := [__contact_begin; get_version version_1f;
              get_full_name_line self; get_name_line self] in
  let categories := get_categories self in
  let vcf := if truthy categories
             then vcf ++ option_list categories else vcf in
  let vcf := vcf ++ get_sorted_phones self in
  let vcf := if include_other_info
             then vcf ++ set_iter (other_info self) else vcf in
  let vcf := vcf ++ [__contact_end; ""; ""] in
  join nl vcf.

Definition to_vcf (self : t) (version_1f : string) (include_other_info : bool)
  : result string :=
  if is_empty self then Raise (ValueError "Empty contact")
  else Return (_to_vcf self version_1f include_other_info).
End Serialize.

End VCFContact.

(** ** vcf/io.py *)

(** The text ["%.1f" % 3.0]. *)
Definition default_version : string := "3.0".

(** The first loop of [parse_vcf_file]: one step on the pair
    [(parsed_contracts, current_contact)]. *)
Definition group_step (st : list (list string) * list string) (line : string)
  : list (list string) * list string :=
  let '(parsed_contracts, current_contact) := st in
  if VCFContact.is_end_of_contact line then (parsed_contracts ++ [current_contact], [])
  else if VCFContact.is_service_line line then (parsed_contracts, current_contact)
  else (parsed_contracts, current_contact ++ [line]).

(** The body of the second loop: a fresh contact fed the lines of a group. *)
Definition build_contact (contact_lines : list string) : VCFContact.t :=
  fold_left VCFContact.add_line contact_lines VCFContact.__init__.

Definition parse_lines (vcf_lines : list string) : list VCFContact.t :=
  let parsed_contracts := fst (fold_left group_step vcf_lines ([], [])) in
  build_contact <$> parsed_contracts.

(** [parse_vcf_file], from the content read from the file. *)
Definition parse_vcf_file (content : string) : list VCFContact.t :=
  let vcf_lines := split LF content in
  parse_lines vcf_lines.

Section Write.
Context `{!SetIteration}.

(** [write_contacts_to_vcf_file]: the content written to the file. *)
Definition write_contacts_to_vcf_file (contacts : list VCFContact.t)
    (version_1f : string) (include_unprocessed_values : bool) : string :=
  fold_left
    (fun vcf_content contact =>
       match VCFContact.to_vcf contact version_1f include_unprocessed_values with
       | Return text => vcf_content +:+ text
       | Raise (ValueError _) => vcf_content
       end)
    contacts "".

(** [clean_vcf]: from the content of the file to its new content. *)
Definition clean_vcf (content : string) : string :=
  let contacts := parse_vcf_file content in
  write_contacts_to_vcf_file contacts default_version false.
End Write.

(** ** Vocabulary of the statements *)

(** The longest prefix of [s] made of characters of the class [p], and
    what follows it. *)
Fixpoint span (p : ascii -> bool) (s : string) : string * string :=
  match s with
  | "" => ("", "")
  | String c s' =>
      if p c then let '(a, b) := span p s' in (String c a, b) else ("", s)
  end.

Fixpoint count_char (c : ascii) (s : string) : nat :=
  match s with
  | "" => 0
  | String d s' => (if Ascii.eqb d c then 1 else 0) + count_char c s'
  end.

(** [s] does not contain the character [c]. *)
Definition lacks (c : ascii) (s : string) : bool :=
  forallb_chars (fun d => negb (Ascii.eqb d c)) s.

(** The characters [re.sub("[^+0-9]", "", _)] keeps. *)
Definition is_plus_or_digit (c : ascii) : bool := Ascii.eqb c "+" || is_digit c.

(** A text without line feed: what [split LF] yields. *)
Definition is_line (s : string) : bool := lacks LF s.

(** The text a record contributes to the written file, if any. *)
Definition rendered `{!SetIteration} (version_1f : string) (include_other_info : bool)
    (c : VCFContact.t) : option string :=
  match VCFContact.to_vcf c version_1f include_other_info with
  | Return text => Some text
  | Raise _ => None
  end.

(** A line that is dispatched to one of the three structured parsers and
    that its pattern does not match. *)
Definition malformed (line : string) : Prop :=
  (VCFContact.is_name_line line = true /\
   re_match VCFContact.__name_pattern line = None) \/
  (VCFContact.is_phone_line line = true /\
   re_match PhoneNumber.__phone_pattern line = None) \/
  (VCFContact.is_category_line line = true /\
   re_match VCFContact.__category_pattern line = None).

(** The states of the grouping loop that the rest of the input cannot
    tell apart. *)
Definition same_groups (st1 st2 : list (list string) * list string) : Prop :=
  build_contact <$> st1.1 = build_contact <$> st2.1 /\
  forall more, build_contact (st1.2 ++ more) = build_contact (st2.2 ++ more).

(** What the parser guarantees of every phone of a record: the default
    type, and a number made of digits and [+]. *)
Definition phone_ok (p : PhoneNumber.t) : Prop :=
  PhoneNumber.phone_type p = "CELL" /\
  forallb_chars is_plus_or_digit (PhoneNumber.number p) = true.

(** The name pattern after [N:], with [n] separators still to come. *)
Fixpoint name_tail (n : nat) : regex :=
  match n with
  | 0 => [VCFContact.__name_part_pattern]
  | S m => VCFContact.__name_part_pattern :: Lit ";" :: name_tail m
  end.

(** The separators [;] on the first line of a text. *)
Definition separators (s : string) : nat := count_char ";" (span is_dot s).1.

(** A name field as the parser stores it: no line feed and no [;]. *)
Definition field_ok (f : string) : Prop := is_line f = true /\ lacks ";" f = true.

(** A category as the parser stores it: no line feed and no comma. *)
Definition category_ok (t : string) : Prop := is_line t = true /\ lacks "," t = true.

(** What holds of every record the parser builds. *)
Definition parsed_ok (c : VCFContact.t) : Prop :=
  set_Forall phone_ok (VCFContact.phones c) /\
  set_Forall category_ok (VCFContact.categories c) /\
  field_ok (VCFContact.surname c) /\ field_ok (VCFContact.first_name c) /\
  field_ok (VCFContact.middle_name c) /\ field_ok (VCFContact.prefix c) /\
  VCFContact.suffix c = "".

Section Blocks.
Context `{!SetIteration}.

(** The lines of a written record, as [clean_vcf] writes them: those kept
    by the grouping loop of the parser ([body_lines]), and all of them up
    to the first of the two closing empty lines ([block_lines]). *)
Definition category_lines (c : VCFContact.t) : list string :=
  if decide (VCFContact.categories c = ∅) then []
  else ["CATEGORIES:" +:+ join "," (set_iter (VCFContact.categories c))].

Definition body_lines (c : VCFContact.t) : list string :=
  [VCFContact.get_full_name_line c; VCFContact.get_name_line c]
  ++ category_lines c ++ VCFContact.get_sorted_phones c.

Definition block_lines (c : VCFContact.t) : list string :=
  ["BEGIN:VCARD"; "VERSION:" +:+ default_version] ++ body_lines c ++ ["END:VCARD"; ""].

(** The records that are written. *)
Definition written (cs : list VCFContact.t) : list VCFContact.t :=
  List.filter (fun c => negb (VCFContact.is_empty c)) cs.

(** The lines of the written file. *)
Definition file_lines (cs : list VCFContact.t) : list string :=
  concat (block_lines <$> written cs) ++ [""].
End Blocks.

(** A record whose written lines parse back: every phone has a digit or
    a [+], and the categories are not the empty category alone. *)
Definition reparsable (c : VCFContact.t) : Prop :=
  set_Forall (fun p => PhoneNumber.number p <> "") (VCFContact.phones c) /\
  VCFContact.categories c <> {[ "" ]}.

(** Two records that [to_vcf] does not tell apart when the other lines
    are left out. *)
Definition same_output (c1 c2 : VCFContact.t) : Prop :=
  VCFContact.phones c1 = VCFContact.phones c2 /\
  VCFContact.categories c1 = VCFContact.categories c2 /\
  VCFContact.prefix c1 = VCFContact.prefix c2 /\
  VCFContact.first_name c1 = VCFContact.first_name c2 /\
  VCFContact.surname c1 = VCFContact.surname c2 /\
  VCFContact.middle_name c1 = VCFContact.middle_name c2 /\
  VCFContact.suffix c1 = VCFContact.suffix c2.

(** The groups that the parser makes of the lines of written records,
    when [cur] is the group open at their start. *)
Fixpoint groups_of `{!SetIteration} (cur : list string) (cs : list VCFContact.t)
  : list (list string) :=
  match cs with
  | [] => []
  | c :: cs' => (cur ++ body_lines c) :: groups_of [""] cs'
  end.





Global Instance malformed_dec (line : string) : Decision (malformed line).
Proof. unfold malformed. apply _. Defined.

Global Instance reparsable_dec (c : VCFContact.t) : Decision (reparsable c).
Proof. unfold reparsable. apply _. Defined.

(** What a line does to a record, as [add_line] decides it. *)
Inductive effect :=
| Keep
| SetName (surname first_name middle_name prefix suffix : string)
| AddPhone (phone : PhoneNumber.t)
| AddCategories (tokens : list string)
| AddOther (line : string).

Definition effect_of (line : string) : effect :=
  if VCFContact.is_service_line line then Keep
  else if VCFContact.is_name_line line then
    match re_match VCFContact.__name_pattern line with
    | Some [a; b; c; d; e] => SetName a b c d e
    | _ => Keep
    end
  else if VCFContact.is_phone_line line then
    match PhoneNumber.from_vcf_line line false with
    | Return phone => AddPhone phone
    | Raise _ => Keep
    end
  else if VCFContact.is_category_line line then
    match re_match VCFContact.__category_pattern line with
    | Some (g :: _) => AddCategories (split VCFContact.__category_separator g)
    | _ => Keep
    end
  else if VCFContact.is_full_name_line line then Keep
  else AddOther line.

Definition apply_effect (e : effect) (c : VCFContact.t) : VCFContact.t :=
  match e with
  | Keep => c
  | SetName a b x d s =>
      VCFContact.mk (VCFContact.phones c) (VCFContact.other_info c)
        (VCFContact.categories c) d b a x s
  | AddPhone p =>
      VCFContact.mk ({[ p ]} ∪ VCFContact.phones c) (VCFContact.other_info c)
        (VCFContact.categories c) (VCFContact.prefix c) (VCFContact.first_name c)
        (VCFContact.surname c) (VCFContact.middle_name c) (VCFContact.suffix c)
  | AddCategories ts =>
      VCFContact.mk (VCFContact.phones c) (VCFContact.other_info c)
        (VCFContact.categories c ∪ list_to_set ts) (VCFContact.prefix c)
        (VCFContact.first_name c) (VCFContact.surname c) (VCFContact.middle_name c)
        (VCFContact.suffix c)
  | AddOther l =>
      VCFContact.mk (VCFContact.phones c) ({[ l ]} ∪ VCFContact.other_info c)
        (VCFContact.categories c) (VCFContact.prefix c) (VCFContact.first_name c)
        (VCFContact.surname c) (VCFContact.middle_name c) (VCFContact.suffix c)
  end.

(** The seven tests of the classifier on a line. *)
Definition classifier_tests (line : string) : list bool :=
  [VCFContact.is_start_of_contact line; VCFContact.is_end_of_contact line;
   VCFContact.is_version_line line; VCFContact.is_name_line line;
   VCFContact.is_phone_line line; VCFContact.is_category_line line;
   VCFContact.is_full_name_line line].

(** The first line of a text: what [.+] can take of it. *)
Definition first_line (s : string) : string := (span is_dot s).1.

(** The lines the parser passes over: the begin marker, the version line
    and the full-name line. *)
Definition ignored (line : string) : bool :=
  VCFContact.is_start_of_contact line || VCFContact.is_version_line line
  || VCFContact.is_full_name_line line.

(** A text of blanks only. *)
Definition blank (s : string) : bool := forallb_chars is_space s.

(** What is left of a record after it is written and read back: the
    phones with a number, and the categories unless they are the empty
    category alone. *)
Definition tidy (c : VCFContact.t) : VCFContact.t :=
  VCFContact.mk
    (filter (fun p => PhoneNumber.number p <> "") (VCFContact.phones c))
    (VCFContact.other_info c)
    (if decide (VCFContact.categories c = {[ "" ]}) then ∅ else VCFContact.categories c)
    (VCFContact.prefix c) (VCFContact.first_name c) (VCFContact.surname c)
    (VCFContact.middle_name c) (VCFContact.suffix c).

Global Instance category_ok_dec (t : string) : Decision (category_ok t).
Proof. unfold category_ok. apply _. Defined.


(** The characters and the texts of the ASCII range, on which the classes
    of this file are those of Python. *)
Definition is_ascii (c : ascii) : bool := (code c <? 128)%N.

Definition ascii_text (s : string) : bool := forallb_chars is_ascii s.

(** A record with one category at most: however its categories are
    enumerated, the same category line is written. *)
Definition single_category (c : VCFContact.t) : Prop :=
  size (VCFContact.categories c) <= 1.


Global Instance single_category_dec (c : VCFContact.t) : Decision (single_category c).
Proof. unfold single_category. apply _. Defined.

(** ** Strings *)

Lemma app_nil_r_s (s : string) : s +:+ "" = s.
Proof. induction s as [|c s IH]; [done|]. unfold String.app in *. simpl. by rewrite IH. Qed.

Lemma app_assoc_s (a b c : string) : (a +:+ b) +:+ c = a +:+ b +:+ c.
Proof.
  induction a as [|x a IH]; [done|].
  unfold String.app in *. simpl. by rewrite IH.
Qed.

Lemma app_cons_s (c : ascii) (a b : string) : String c a +:+ b = String c (a +:+ b).
Proof. done. Qed.

Lemma app_nil_l_s (s : string) : "" +:+ s = s.
Proof. done. Qed.

Lemma strip_prefix_app (p s : string) : strip_prefix p (p +:+ s) = Some s.
Proof.
  induction p as [|c p IH]; [done|].
  rewrite app_cons_s. simpl. by rewrite Ascii.eqb_refl.
Qed.

Lemma strip_prefix_Some (p s r : string) : strip_prefix p s = Some r -> s = p +:+ r.
Proof.
  revert s. induction p as [|c p IH]; intros s H; simpl in H.
  - by destruct s; inversion H.
  - destruct s as [|d s]; [done|].
    destruct (Ascii.eqb_spec c d) as [->|]; [|done].
    rewrite app_cons_s. f_equal. by apply IH.
Qed.

Lemma strip_prefix_mismatch (c d : ascii) (p s : string) :
  c <> d -> strip_prefix (String c p) (String d s) = None.
Proof. intros H. simpl. by destruct (Ascii.eqb_spec c d). Qed.

Lemma startswith_app (p s : string) : startswith (p +:+ s) p = true.
Proof.
  unfold startswith. induction p as [|c p IH]; [by destruct s|].
  rewrite app_cons_s. simpl. destruct (ascii_dec c c); [done|congruence].
Qed.

Lemma forallb_chars_app (p : ascii -> bool) (a b : string) :
  forallb_chars p (a +:+ b) = forallb_chars p a && forallb_chars p b.
Proof.
  induction a as [|c a IH]; [done|].
  rewrite app_cons_s. simpl. rewrite IH. by destruct (p c).
Qed.

Lemma forallb_chars_impl (p q : ascii -> bool) (s : string) :
  (forall c, p c = true -> q c = true) ->
  forallb_chars p s = true -> forallb_chars q s = true.
Proof.
  intros Hpq. induction s as [|c s IH]; [done|]. simpl.
  intros [Hc Hs]%andb_true_iff. rewrite (Hpq _ Hc). by apply IH.
Qed.

Lemma filter_chars_all (p : ascii -> bool) (s : string) :
  forallb_chars p s = true -> filter_chars p s = s.
Proof.
  induction s as [|c s IH]; [done|]. simpl.
  intros [-> Hs]%andb_true_iff. by rewrite IH.
Qed.

Lemma filter_chars_none (p : ascii -> bool) (s : string) :
  forallb_chars (fun c => negb (p c)) s = true -> filter_chars p s = "".
Proof.
  induction s as [|c s IH]; [done|]. simpl.
  intros [Hc Hs]%andb_true_iff. apply negb_true_iff in Hc. rewrite Hc. by apply IH.
Qed.

Lemma filter_chars_forallb (p : ascii -> bool) (s : string) :
  forallb_chars p (filter_chars p s) = true.
Proof.
  induction s as [|c s IH]; [done|]. simpl.
  destruct (p c) eqn:Hc; [|done]. simpl. by rewrite Hc.
Qed.

Lemma span_all (p : ascii -> bool) (s : string) :
  forallb_chars p s = true -> span p s = (s, "").
Proof.
  induction s as [|c s IH]; [done|]. simpl.
  intros [-> Hs]%andb_true_iff. by rewrite IH.
Qed.

Lemma span_stop (p : ascii -> bool) (a : string) (c : ascii) (s : string) :
  forallb_chars p a = true -> p c = false ->
  span p (a +:+ String c s) = (a, String c s).
Proof.
  intros Ha Hc. induction a as [|d a IH]; simpl in *.
  - by rewrite Hc.
  - apply andb_true_iff in Ha as [Hd Ha]. rewrite Hd. by rewrite IH.
Qed.

Lemma span_fst_forallb (p : ascii -> bool) (s : string) :
  forallb_chars p (span p s).1 = true.
Proof.
  induction s as [|c s IH]; [done|]. simpl.
  destruct (p c) eqn:Hc; [|done].
  destruct (span p s) as [a b]. simpl in *. by rewrite Hc.
Qed.

(** ** The matcher on the shapes the program meets *)

(** A greedy star in front of a continuation that never fails takes the
    whole run. *)
Lemma greedy_star_total (p : ascii -> bool) (gs : list string) (s : string) :
  greedy_star p (fun _ => Some gs) s = Some ((span p s).1, gs).
Proof.
  induction s as [|c s IH]; [done|]. simpl.
  destruct (p c); [|done]. rewrite IH. by destruct (span p s).
Qed.

(** A greedy star in front of a continuation that cannot start on a
    character of the class: giving characters back never helps. *)
Lemma greedy_star_commit (p : ascii -> bool) (k : string -> option (list string))
    (s : string) :
  (forall c t, p c = true -> k (String c t) = None) ->
  greedy_star p k s =
    match k (span p s).2 with
    | Some gs => Some ((span p s).1, gs)
    | None => None
    end.
Proof.
  intros Hk. induction s as [|c s IH]; [done|]. simpl.
  destruct (p c) eqn:Hc; [|done].
  rewrite IH. destruct (span p s) as [a b]. simpl.
  destruct (k b); [done|]. by rewrite Hk.
Qed.

(** A lazy star stops at the first position where the continuation
    succeeds. *)
Lemma lazy_star_first (p : ascii -> bool) (k : string -> option (list string))
    (a s : string) (gs : list string) :
  forallb_chars p a = true ->
  (forall a1 c a2, a = a1 +:+ String c a2 -> k (String c a2 +:+ s) = None) ->
  k s = Some gs ->
  lazy_star p k (a +:+ s) = Some (a, gs).
Proof.
  intros Hp Hfail Hk. induction a as [|c a IH].
  - rewrite app_nil_l_s. destruct s; simpl; by rewrite Hk.
  - simpl in Hp. apply andb_true_iff in Hp as [Hc Ha].
    rewrite app_cons_s. simpl.
    rewrite <- app_cons_s, (Hfail "" c a eq_refl), Hc, IH; [done|done|].
    intros a1 d a2 ->. by apply (Hfail (String c a1)).
Qed.

Lemma greedy_plus_total (p : ascii -> bool) (gs : list string) (s : string) :
  greedy_plus p (fun _ => Some gs) s =
    if String.eqb (span p s).1 "" then None else Some ((span p s).1, gs).
Proof.
  destruct s as [|c s]; [done|]. simpl.
  destruct (p c); [|done]. rewrite greedy_star_total.
  by destruct (span p s).
Qed.

Lemma re_match_Lit (l : string) (r : regex) (s : string) :
  re_match (Lit l :: r) (l +:+ s) = re_match r s.
Proof. cbn [re_match]. by rewrite strip_prefix_app. Qed.

Lemma re_match_Lit_mismatch (c d : ascii) (l : string) (r : regex) (s : string) :
  c <> d -> re_match (Lit (String c l) :: r) (String d s) = None.
Proof. intros H. cbn [re_match]. by rewrite strip_prefix_mismatch. Qed.

Lemma re_match_plus_last (c : charclass) (s : string) :
  re_match [Group c GreedyPlus] s =
    if String.eqb (span (in_class c) s).1 "" then None
    else Some [(span (in_class c) s).1].
Proof.
  cbn [re_match]. rewrite greedy_plus_total.
  by destruct (String.eqb _ _).
Qed.

Lemma re_match_plus_commit (c : charclass) (r : regex) (a : string) (d : ascii)
    (s : string) :
  a <> "" -> forallb_chars (in_class c) a = true -> in_class c d = false ->
  (forall x t, in_class c x = true -> re_match r (String x t) = None) ->
  re_match (Group c GreedyPlus :: r) (a +:+ String d s) =
    match re_match r (String d s) with
    | Some gs => Some (a :: gs)
    | None => None
    end.
Proof.
  intros Hne Ha Hd Hr. destruct a as [|x a]; [done|].
  simpl in Ha. apply andb_true_iff in Ha as [Hx Ha].
  cbn [re_match]. unfold greedy_plus. rewrite app_cons_s, Hx.
  rewrite greedy_star_commit by done.
  rewrite (span_stop _ a d s Ha Hd). simpl.
  by destruct (re_match r (String d s)).
Qed.

Lemma re_match_lazy_last (c : charclass) (s : string) :
  re_match [Group c LazyStar] s = Some [""].
Proof. cbn [re_match]. by destruct s. Qed.

Lemma re_match_lazy_sep (c : charclass) (sep : ascii) (r : regex) (a s : string)
    (gs : list string) :
  forallb_chars (in_class c) a = true -> lacks sep a = true ->
  re_match r s = Some gs ->
  re_match (Group c LazyStar :: Lit (String sep "") :: r) (a +:+ String sep s) =
    Some (a :: gs).
Proof.
  intros Ha Hsep Hr.
  change (re_match (Group c LazyStar :: Lit (String sep "") :: r) (a +:+ String sep s))
    with (match lazy_star (in_class c) (re_match (Lit (String sep "") :: r))
                  (a +:+ String sep s) with
          | Some (g, gs) => Some (g :: gs) | None => None end).
  rewrite (lazy_star_first _ _ a (String sep s) gs); [done|done| |].
  - intros a1 x a2 ->. rewrite app_cons_s. apply re_match_Lit_mismatch.
    unfold lacks in Hsep. rewrite forallb_chars_app in Hsep.
    apply andb_true_iff in Hsep as [_ Hsep]. simpl in Hsep.
    apply andb_true_iff in Hsep as [Hx _].
    destruct (Ascii.eqb_spec x sep); [done|congruence].
  - by rewrite <- Hr, <- (re_match_Lit (String sep "") r s).
Qed.

Lemma phone_pattern_match (w rest : string) :
  w <> "" -> forallb_chars is_word w = true ->
  re_match PhoneNumber.__phone_pattern ("TEL;TYPE=" +:+ w +:+ ":" +:+ rest) =
    if String.eqb (span is_dot rest).1 "" then None
    else Some [w; (span is_dot rest).1].
Proof.
  intros Hne Hw. unfold PhoneNumber.__phone_pattern.
  change ("TEL;TYPE=" +:+ w +:+ ":" +:+ rest)
    with (PhoneNumber.__phone_line +:+ PhoneNumber.__type_line +:+ w +:+ String ":" rest).
  rewrite !re_match_Lit.
  rewrite re_match_plus_commit; [|done|done|done|].
  - rewrite (re_match_Lit ":" _ rest), re_match_plus_last.
    by destruct (String.eqb _ _).
  - intros x t Hx. apply re_match_Lit_mismatch. by intros <-.
Qed.

Lemma category_pattern_match (rest : string) :
  re_match VCFContact.__category_pattern ("CATEGORIES:" +:+ rest) =
    if String.eqb (span is_dot rest).1 "" then None
    else Some [(span is_dot rest).1].
Proof.
  unfold VCFContact.__category_pattern.
  change ("CATEGORIES:" +:+ rest) with (VCFContact.__category +:+ rest).
  by rewrite re_match_Lit, re_match_plus_last.
Qed.

Lemma name_pattern_match (a b c d e : string) :
  is_line a = true -> is_line b = true -> is_line c = true -> is_line d = true ->
  lacks ";" a = true -> lacks ";" b = true -> lacks ";" c = true -> lacks ";" d = true ->
  re_match VCFContact.__name_pattern
    ("N:" +:+ a +:+ ";" +:+ b +:+ ";" +:+ c +:+ ";" +:+ d +:+ ";" +:+ e) =
    Some [a; b; c; d; ""].
Proof.
  intros La Lb Lc Ld Sa Sb Sc Sd.
  unfold VCFContact.__name_pattern, VCFContact.__name_pattern_replacement,
    VCFContact.__name_part_pattern.
  change ("N:" +:+ a +:+ ";" +:+ b +:+ ";" +:+ c +:+ ";" +:+ d +:+ ";" +:+ e)
    with (VCFContact.__name +:+ a +:+ String ";" (b +:+ String ";" (c +:+ String ";" (d +:+ String ";" e)))).
  rewrite re_match_Lit.
  repeat (erewrite re_match_lazy_sep; [reflexivity|done|done|]).
  apply re_match_lazy_last.
Qed.

(** ** [split] and [join] *)

Lemma split_not_nil (sep : ascii) (s : string) : split sep s <> [].
Proof.
  induction s as [|c s IH]; [done|]. simpl.
  destruct (Ascii.eqb c sep); [done|]. by destruct (split sep s).
Qed.

Lemma split_lacks (sep : ascii) (s : string) : lacks sep s = true -> split sep s = [s].
Proof.
  induction s as [|c s IH]; [done|]. simpl.
  intros [Hc Hs]%andb_true_iff. apply negb_true_iff in Hc. rewrite Hc.
  by rewrite IH.
Qed.

Lemma split_app_sep (sep : ascii) (a b : string) :
  lacks sep a = true -> split sep (a +:+ String sep b) = a :: split sep b.
Proof.
  induction a as [|c a IH]; simpl.
  - intros _. by rewrite Ascii.eqb_refl.
  - intros [Hc Ha]%andb_true_iff. apply negb_true_iff in Hc. rewrite Hc.
    by rewrite IH.
Qed.

Lemma split_app (sep : ascii) (a b : string) :
  split sep (a +:+ String sep b) = split sep a ++ split sep b.
Proof.
  induction a as [|c a IH]; simpl.
  - by rewrite Ascii.eqb_refl.
  - destruct (Ascii.eqb c sep); [by rewrite IH|].
    rewrite IH. pose proof (split_not_nil sep a). by destruct (split sep a).
Qed.

Lemma split_all_lack (sep : ascii) (s : string) :
  Forall (fun t => lacks sep t = true) (split sep s).
Proof.
  induction s as [|c s IH]; simpl; [by repeat constructor|].
  destruct (Ascii.eqb c sep) eqn:Hc; [by constructor|].
  pose proof (split_not_nil sep s).
  destruct (split sep s) as [|h t]; [done|].
  inversion IH; subst. constructor; [|done]. unfold lacks in *. simpl. by rewrite Hc.
Qed.

Lemma split_join (sep : ascii) (l : list string) :
  l <> [] -> Forall (fun t => lacks sep t = true) l ->
  split sep (join (String sep "") l) = l.
Proof.
  intros Hne Hl. induction Hl as [|x l Hx Hl IH]; [done|].
  destruct l as [|y l].
  - simpl. by apply split_lacks.
  - change (join (String sep "") (x :: y :: l))
      with (x +:+ String sep (join (String sep "") (y :: l))).
    rewrite split_app_sep by done. by rewrite IH.
Qed.

Lemma join_split (sep : ascii) (s : string) : join (String sep "") (split sep s) = s.
Proof.
  induction s as [|c s IH]; [done|]. simpl.
  destruct (Ascii.eqb_spec c sep) as [->|Hc].
  - pose proof (split_not_nil sep s).
    destruct (split sep s) as [|h t] eqn:E; [done|].
    change (join (String sep "") ("" :: h :: t)) with (String sep (join (String sep "") (h :: t))).
    by rewrite IH.
  - pose proof (split_not_nil sep s).
    destruct (split sep s) as [|h t] eqn:E; [done|].
    rewrite <- IH. by destruct t.
Qed.

(** The pieces of a text with at least one separator. *)
Lemma split_count (sep : ascii) (s : string) :
  length (split sep s) = S (count_char sep s).
Proof.
  induction s as [|c s IH]; [done|]. simpl.
  destruct (Ascii.eqb c sep); simpl; [by rewrite IH|].
  pose proof (split_not_nil sep s).
  destruct (split sep s); [done|]. by simpl in *.
Qed.

Lemma split_cons_inv (sep : ascii) (s h x : string) (t : list string) :
  split sep s = h :: x :: t ->
  exists s', s = h +:+ String sep s' /\ split sep s' = x :: t.
Proof.
  revert h. induction s as [|c s IH]; intros h; [done|]. simpl.
  destruct (Ascii.eqb_spec c sep) as [->|Hc].
  - intros [= <- E]. by exists s.
  - destruct (split sep s) as [|h' t'] eqn:E; [done|].
    intros [= <- ->]. destruct (IH h' eq_refl) as (s' & -> & Hs').
    by exists s'.
Qed.

(** ** [sorted] *)

Lemma insert_sorted_perm (x : string) (l : list string) : insert_sorted x l ≡ₚ x :: l.
Proof.
  induction l as [|y l IH]; [done|]. simpl.
  destruct (String.leb x y); [done|]. rewrite IH. apply Permutation_swap.
Qed.

Lemma sorted_perm (l : list string) : sorted l ≡ₚ l.
Proof.
  induction l as [|x l IH]; [done|]. simpl.
  by rewrite insert_sorted_perm, IH.
Qed.

Lemma leb_false_le (x y : string) : String.leb x y = false -> String.le y x.
Proof.
  intros H. destruct (String.leb_total x y) as [E|E]; [congruence|].
  unfold String.le. by rewrite E.
Qed.

Lemma insert_sorted_sorted (x : string) (l : list string) :
  Sorted String.le l -> Sorted String.le (insert_sorted x l).
Proof.
  induction 1 as [|y l Hl IH Hy]; simpl; [by repeat constructor|].
  destruct (String.leb x y) eqn:E.
  - constructor; [by constructor|]. constructor. unfold String.le. by rewrite E.
  - constructor; [done|]. 
    destruct l as [|z l]; simpl.
    + constructor. by apply leb_false_le.
    + destruct (String.leb x z) eqn:E'; constructor.
      * by apply leb_false_le.
      * by inversion Hy.
Qed.

Lemma sorted_sorted (l : list string) : Sorted String.le (sorted l).
Proof.
  induction l as [|x l IH]; simpl; [constructor|]. by apply insert_sorted_sorted.
Qed.

(** Two sorted lists with the same elements are the same list. *)
Lemma sorted_unique (l1 l2 : list string) :
  Sorted String.le l1 -> Sorted String.le l2 -> l1 ≡ₚ l2 -> l1 = l2.
Proof.
  intros H1 H2 Hp.
  by apply (@Sorted_unique _ String.le _ _).
Qed.

Lemma sorted_proper (l1 l2 : list string) : l1 ≡ₚ l2 -> sorted l1 = sorted l2.
Proof.
  intros Hp. apply sorted_unique; try apply sorted_sorted.
  by rewrite !sorted_perm.
Qed.

(** ** Serialization *)

Lemma join_empty_cons (x : string) (l : list string) :
  join "" (x :: l) = x +:+ join "" l.
Proof. destruct l; simpl; [by rewrite app_nil_r_s|done]. Qed.

Lemma is_empty_spec (c : VCFContact.t) :
  VCFContact.is_empty c = true <-> VCFContact.phones c = ∅.
Proof.
  unfold VCFContact.is_empty. rewrite Nat.eqb_eq, size_empty_iff. by unfold_leibniz.
Qed.

Section SerializeFacts.
Context `{!SetIteration}.

Lemma write_contacts_acc (cs : list VCFContact.t) (v : string) (o : bool) (acc : string) :
  fold_left
    (fun vcf_content contact =>
       match VCFContact.to_vcf contact v o with
       | Return text => vcf_content +:+ text
       | Raise (ValueError _) => vcf_content
       end) cs acc
  = acc +:+ join "" (omap (rendered v o) cs).
Proof.
  revert acc. induction cs as [|c cs IH]; intros acc.
  - simpl. by rewrite app_nil_r_s.
  - simpl. rewrite IH. unfold rendered at 2.
    destruct (VCFContact.to_vcf c v o) as [text|[msg]]; [|done].
    by rewrite join_empty_cons, app_assoc_s.
Qed.

(** C3: [to_vcf] raises exactly on a record without phone, and
    [write_contacts_to_vcf_file] writes the texts of the records that
    serialize, in the order of the list, skipping the others. *)
Theorem C3_empty_records_are_skipped :
  (forall c v o,
      VCFContact.to_vcf c v o = Raise (ValueError "Empty contact") <->
      VCFContact.is_empty c = true) /\
  (forall c, VCFContact.is_empty c = true <-> VCFContact.phones c = ∅) /\
  (forall cs v o,
      write_contacts_to_vcf_file cs v o = join "" (omap (rendered v o) cs)) /\
  (forall c v o,
      rendered v o c =
        if VCFContact.is_empty c then None else Some (VCFContact._to_vcf c v o)).
Proof.
  repeat split.
  - intros Hm. unfold VCFContact.to_vcf in Hm.
    by destruct (VCFContact.is_empty c).
  - intros Hc. unfold VCFContact.to_vcf. by rewrite Hc.
  - by apply is_empty_spec.
  - by apply is_empty_spec.
  - intros cs v o. unfold write_contacts_to_vcf_file.
    by rewrite write_contacts_acc.
  - intros c v o. unfold rendered, VCFContact.to_vcf.
    by destruct (VCFContact.is_empty c).
Qed.

Lemma get_sorted_phones_perm (c : VCFContact.t) :
  VCFContact.get_sorted_phones c ≡ₚ PhoneNumber.__str__ <$> elements (VCFContact.phones c).
Proof.
  unfold VCFContact.get_sorted_phones. by rewrite sorted_perm, set_iter_perm.
Qed.

Lemma get_categories_truthy (c : VCFContact.t) :
  VCFContact.truthy (VCFContact.get_categories c) =
    if decide (VCFContact.categories c = ∅) then false else true.
Proof.
  unfold VCFContact.get_categories. by destruct (decide _).
Qed.

(** C4: the lines of a serialized record, in order. *)
Theorem C4_serialized_layout (c : VCFContact.t) (v : string) (o : bool) :
  VCFContact.is_empty c = false ->
  VCFContact.to_vcf c v o =
    Return (join nl
      (["BEGIN:VCARD";
        "VERSION:" +:+ v;
        "FN:" +:+ VCFContact.full_name c;
        "N:" +:+ VCFContact.surname c +:+ ";" +:+ VCFContact.first_name c +:+ ";" +:+
          VCFContact.middle_name c +:+ ";" +:+ VCFContact.prefix c +:+ ";" +:+
          VCFContact.suffix c]
       ++ (if decide (VCFContact.categories c = ∅) then []
           else ["CATEGORIES:" +:+ join "," (set_iter (VCFContact.categories c))])
       ++ VCFContact.get_sorted_phones c
       ++ (if o then set_iter (VCFContact.other_info c) else [])
       ++ ["END:VCARD"; ""; ""])) /\
  Sorted String.le (VCFContact.get_sorted_phones c) /\
  VCFContact.get_sorted_phones c ≡ₚ
    PhoneNumber.__str__ <$> elements (VCFContact.phones c) /\
  (forall S' : SetIteration,
      @VCFContact.get_sorted_phones S' c = VCFContact.get_sorted_phones c).
Proof.
  intros Hc. split; [|split; [|split]].
  - unfold VCFContact.to_vcf. rewrite Hc. f_equal.
    unfold VCFContact._to_vcf. rewrite get_categories_truthy.
    unfold VCFContact.get_categories.
    replace (VCFContact.get_name_line c) with
      ("N:" +:+ VCFContact.surname c +:+ ";" +:+ VCFContact.first_name c +:+ ";" +:+
          VCFContact.middle_name c +:+ ";" +:+ VCFContact.prefix c +:+ ";" +:+
          VCFContact.suffix c).
    2:{ done. }
    destruct (decide (VCFContact.categories c = ∅)); destruct o; simpl;
      by rewrite <- ?app_assoc.
  - apply sorted_sorted.
  - apply get_sorted_phones_perm.
  - intros S'. unfold VCFContact.get_sorted_phones. apply sorted_proper.
    by rewrite !set_iter_perm.
Qed.
End SerializeFacts.

Lemma C3_empty_records_are_skipped_witness :
  @write_contacts_to_vcf_file elements_order
    [build_contact ["N:Roe;Rick;;;"]; build_contact ["N:Doe;Jane;;;"; "TEL;TYPE=CELL:1"]]
    "3.0" false =
  join "" (omap (@rendered elements_order "3.0" false)
    [build_contact ["N:Roe;Rick;;;"]; build_contact ["N:Doe;Jane;;;"; "TEL;TYPE=CELL:1"]]).
Proof.
  exact (proj1 (proj2 (proj2 (@C3_empty_records_are_skipped elements_order))) _ _ _).
Defined.

Lemma C4_serialized_layout_witness :
  @VCFContact.to_vcf elements_order
     (build_contact ["N:Doe;Jane;;;"; "CATEGORIES:Friends"; "TEL;TYPE=CELL:2"; "TEL;TYPE=CELL:1"])
     "3.0" false =
  Return (join nl ["BEGIN:VCARD"; "VERSION:3.0"; "FN:Jane Doe"; "N:Doe;Jane;;;";
                   "CATEGORIES:Friends"; "TEL;TYPE=CELL:1"; "TEL;TYPE=CELL:2";
                   "END:VCARD"; ""; ""]).
Proof.
  refine (eq_trans (proj1 (@C4_serialized_layout elements_order
            (build_contact ["N:Doe;Jane;;;"; "CATEGORIES:Friends"; "TEL;TYPE=CELL:2";
                            "TEL;TYPE=CELL:1"]) "3.0" false _)) _);
    by vm_compute.
Defined.

(** ** Parsing a phone line *)

Lemma startswith_inv (s p : string) : startswith s p = true -> exists r, s = p +:+ r.
Proof.
  unfold startswith. revert s. induction p as [|c p IH]; intros s H.
  - by exists s.
  - destruct s as [|d s]; [done|]. simpl in H.
    destruct (ascii_dec c d) as [->|]; [|done].
    destruct (IH s H) as [r ->]. by exists r.
Qed.

Lemma from_vcf_line_match (w rest : string) (preserve_type : bool) :
  w <> "" -> forallb_chars is_word w = true ->
  rest <> "" -> is_line rest = true ->
  PhoneNumber.from_vcf_line ("TEL;TYPE=" +:+ w +:+ ":" +:+ rest) preserve_type =
    Return (PhoneNumber.mk (filter_chars is_plus_or_digit rest)
              (if preserve_type then upper w else "CELL")).
Proof.
  intros Hw1 Hw2 Hr1 Hr2. unfold PhoneNumber.from_vcf_line.
  rewrite phone_pattern_match by done.
  rewrite (span_all is_dot rest Hr2). simpl.
  destruct rest as [|d rest]; [done|]. simpl.
  by destruct preserve_type.
Qed.

(** C5: a line [TEL;TYPE=<word>:<rest>] parses to the number [<rest>]
    without the characters other than digits and [+], and to the type
    [<word>] in upper case when [preserve_type] is set, ["CELL"] otherwise. *)
Theorem C5_phone_line_normalized (w rest : string) (preserve_type : bool) :
  w <> "" -> forallb_chars is_word w = true ->
  rest <> "" -> is_line rest = true ->
  PhoneNumber.from_vcf_line ("TEL;TYPE=" +:+ w +:+ ":" +:+ rest) preserve_type =
    Return (PhoneNumber.mk (filter_chars is_plus_or_digit rest)
              (if preserve_type then upper w else "CELL")) /\
  forallb_chars is_plus_or_digit (filter_chars is_plus_or_digit rest) = true /\
  (forall line g0 g1,
      re_match PhoneNumber.__phone_pattern line = Some [g0; g1] ->
      PhoneNumber.from_vcf_line line preserve_type =
        Return (PhoneNumber.mk (filter_chars is_plus_or_digit g1)
                  (if preserve_type then upper g0 else "CELL"))) /\
  PhoneNumber.from_vcf_line "TEL;TYPE=CELL:(555) 123-4567" preserve_type =
    Return (PhoneNumber.mk "5551234567" "CELL") /\
  PhoneNumber.__str__ <$> (match PhoneNumber.from_vcf_line "TEL;TYPE=WORK:12345" false with
                           | Return phone => Some phone
                           | Raise _ => None
                           end) = Some "TEL;TYPE=CELL:12345".
Proof.
  intros Hw1 Hw2 Hr1 Hr2. split; [by apply from_vcf_line_match|].
  split; [apply filter_chars_forallb|]. split; [|split; [by destruct preserve_type|done]].
  intros line g0 g1 Hm. unfold PhoneNumber.from_vcf_line. rewrite Hm. simpl.
  by destruct preserve_type.
Qed.

Lemma C5_phone_line_normalized_witness :
  PhoneNumber.from_vcf_line ("TEL;TYPE=" +:+ "home" +:+ ":" +:+ "+1 (555) 010-9999") true =
    Return (PhoneNumber.mk "+15550109999" "HOME").
Proof.
  refine (proj1 (C5_phone_line_normalized "home" "+1 (555) 010-9999" true _ _ _ _));
    [discriminate | reflexivity | discriminate | reflexivity].
Defined.

(** C10: a phone line whose number part has no digit and no [+] still
    parses, to the empty number; the record then counts as non-empty and
    the phone is written as [TEL;TYPE=CELL:]. *)
Theorem C10_empty_number_accepted (w rest : string) (c : VCFContact.t) :
  w <> "" -> forallb_chars is_word w = true ->
  rest <> "" -> is_line rest = true ->
  forallb_chars (fun x => negb (is_plus_or_digit x)) rest = true ->
  let line := "TEL;TYPE=" +:+ w +:+ ":" +:+ rest in
  PhoneNumber.from_vcf_line line false = Return (PhoneNumber.mk "" "CELL") /\
  (forall preserve_type, exists ty,
      PhoneNumber.from_vcf_line line preserve_type = Return (PhoneNumber.mk "" ty)) /\
  VCFContact.is_empty (VCFContact.add_line c line) = false /\
  PhoneNumber.__str__ (PhoneNumber.mk "" "CELL") = "TEL;TYPE=CELL:" /\
  (forall S : SetIteration,
      @VCFContact.get_sorted_phones S (VCFContact.add_line VCFContact.__init__ line) =
        ["TEL;TYPE=CELL:"]).
Proof.
  intros Hw1 Hw2 Hr1 Hr2 Hnone line.
  assert (Hparse : forall p, PhoneNumber.from_vcf_line line p =
            Return (PhoneNumber.mk "" (if p then upper w else "CELL"))).
  { intros p. unfold line. rewrite from_vcf_line_match by done.
    by rewrite filter_chars_none. }
  assert (Hadd : forall c', VCFContact.add_line c' line =
            VCFContact.add_phone c' line).
  { intros c'. done. }
  split; [apply Hparse|]. split; [intros p; eexists; apply Hparse|].
  split; [|split; [done|]].
  - rewrite Hadd. unfold VCFContact.add_phone. rewrite Hparse.
    unfold VCFContact.is_empty. simpl. apply Nat.eqb_neq.
    apply size_non_empty_iff. set_solver.
  - intros S. rewrite Hadd. unfold VCFContact.add_phone. rewrite Hparse.
    unfold VCFContact.get_sorted_phones. simpl.
    apply sorted_unique; [apply sorted_sorted|repeat constructor|].
    rewrite sorted_perm, set_iter_perm.
    replace ({[PhoneNumber.mk "" "CELL"]} ∪ ∅ : gset PhoneNumber.t)
      with ({[PhoneNumber.mk "" "CELL"]} : gset PhoneNumber.t) by set_solver.
    by rewrite elements_singleton.
Qed.

Lemma C10_empty_number_accepted_witness :
  PhoneNumber.from_vcf_line "TEL;TYPE=CELL:n/a" false = Return (PhoneNumber.mk "" "CELL").
Proof.
  refine (proj1 (C10_empty_number_accepted "CELL" "n/a" VCFContact.__init__ _ _ _ _ _));
    [discriminate | reflexivity | discriminate | reflexivity | reflexivity].
Defined.

(** ** The grouping loop *)

Lemma group_step_same (st1 st2 : list (list string) * list string) (line : string) :
  same_groups st1 st2 -> same_groups (group_step st1 line) (group_step st2 line).
Proof.
  destruct st1 as [P1 c1], st2 as [P2 c2]. intros [HP Hc]. simpl in *.
  unfold group_step.
  destruct (VCFContact.is_end_of_contact line).
  - split; simpl; [|done]. rewrite !fmap_app, HP. simpl.
    specialize (Hc []). rewrite !app_nil_r in Hc. by rewrite Hc.
  - destruct (VCFContact.is_service_line line); [done|].
    split; simpl; [done|]. intros more. rewrite <- !app_assoc. apply Hc.
Qed.



Lemma fold_group_step_no_end (tail : list string) (st : list (list string) * list string) :
  Forall (fun l => VCFContact.is_end_of_contact l = false) tail ->
  (fold_left group_step tail st).1 = st.1.
Proof.
  intros H. revert st. induction H as [|l tail Hl Ht IH]; intros [P cur]; [done|].
  simpl. rewrite IH. unfold group_step. rewrite Hl.
  by destruct (VCFContact.is_service_line l).
Qed.

Lemma fold_group_step_count (ls : list string) (st : list (list string) * list string) :
  length (fold_left group_step ls st).1 =
    length st.1 + length (List.filter VCFContact.is_end_of_contact ls).
Proof.
  revert st. induction ls as [|l ls IH]; intros [P cur]; simpl; [lia|].
  rewrite IH. unfold group_step.
  destruct (VCFContact.is_end_of_contact l); simpl.
  - rewrite length_app. simpl. lia.
  - destruct (VCFContact.is_service_line l); simpl; lia.
Qed.

Lemma prefix_empty (s : string) : String.prefix "" s = true.
Proof. by destruct s. Qed.

Ltac dispatch :=
  unfold VCFContact.add_line, VCFContact.is_service_line, VCFContact.is_name_line,
    VCFContact.is_phone_line, VCFContact.is_category_line,
    VCFContact.is_full_name_line, VCFContact.is_start_of_contact,
    VCFContact.is_end_of_contact, VCFContact.is_version_line, startswith;
  simpl; rewrite ?prefix_empty; try reflexivity.

Lemma add_line_name (c : VCFContact.t) (r : string) :
  VCFContact.add_line c ("N:" +:+ r) = VCFContact.add_name c ("N:" +:+ r).
Proof. dispatch. Qed.

Lemma add_line_phone (c : VCFContact.t) (r : string) :
  VCFContact.add_line c ("TEL;" +:+ r) = VCFContact.add_phone c ("TEL;" +:+ r).
Proof. dispatch. Qed.

Lemma add_line_category (c : VCFContact.t) (r : string) :
  VCFContact.add_line c ("CATEGORIES:" +:+ r) =
    VCFContact.add_category c ("CATEGORIES:" +:+ r).
Proof. dispatch. Qed.

Lemma add_line_full_name (c : VCFContact.t) (r : string) :
  VCFContact.add_line c ("FN:" +:+ r) = c.
Proof. dispatch. Qed.

Lemma malformed_ignored (line : string) (c : VCFContact.t) :
  malformed line -> VCFContact.add_line c line = c.
Proof.
  intros [[Hk Hm]|[[Hk Hm]|[Hk Hm]]]; apply startswith_inv in Hk as [r ->];
    unfold VCFContact.__name, VCFContact.__phone, VCFContact.__category in *.
  - rewrite (add_line_name c r). unfold VCFContact.add_name.
    by rewrite Hm.
  - rewrite (add_line_phone c r). unfold VCFContact.add_phone, PhoneNumber.from_vcf_line.
    by rewrite Hm.
  - rewrite (add_line_category c r). unfold VCFContact.add_category.
    by rewrite Hm.
Qed.




(** C8: the lines that follow the last end marker are in no record. *)
Theorem C8_trailing_group_discarded (pre tail : list string) :
  Forall (fun l => VCFContact.is_end_of_contact l = false) tail ->
  parse_lines (pre ++ tail) = parse_lines pre /\
  parse_lines tail = [] /\
  length (parse_lines (pre ++ tail)) =
    length (List.filter VCFContact.is_end_of_contact pre) /\
  (forall text rest, split LF rest = tail ->
      parse_vcf_file (text +:+ nl +:+ rest) = parse_vcf_file text).
Proof.
  intros Ht.
  assert (H1 : forall pre', parse_lines (pre' ++ tail) = parse_lines pre').
  { intros pre'. unfold parse_lines. rewrite fold_left_app.
    by rewrite fold_group_step_no_end. }
  split; [apply H1|]. split; [apply (H1 [])|]. split.
  - rewrite H1. unfold parse_lines. rewrite length_fmap, fold_group_step_count.
    done.
  - intros text rest <-. unfold parse_vcf_file, nl.
    change (text +:+ String LF "" +:+ rest) with (text +:+ String LF rest).
    rewrite split_app. apply H1.
Qed.

Lemma C8_trailing_group_discarded_witness :
  parse_lines (["N:Doe;Jane;;;"; "TEL;TYPE=CELL:1"; "END:VCARD"] ++
               ["BEGIN:VCARD"; "N:Roe;Rick;;;"; "TEL;TYPE=CELL:2"]) =
  parse_lines ["N:Doe;Jane;;;"; "TEL;TYPE=CELL:1"; "END:VCARD"].
Proof.
  refine (proj1 (C8_trailing_group_discarded _ _ _)).
  repeat constructor.
Defined.

(** ** Categories and names *)

Lemma add_category_match (c : VCFContact.t) (rest : string) :
  rest <> "" -> is_line rest = true ->
  VCFContact.add_category c ("CATEGORIES:" +:+ rest) =
    VCFContact.mk (VCFContact.phones c) (VCFContact.other_info c)
      (VCFContact.categories c ∪ list_to_set (split "," rest))
      (VCFContact.prefix c) (VCFContact.first_name c) (VCFContact.surname c)
      (VCFContact.middle_name c) (VCFContact.suffix c).
Proof.
  intros Hne Hl. unfold VCFContact.add_category.
  rewrite category_pattern_match, (span_all is_dot rest Hl). simpl.
  by destruct rest.
Qed.

(** C7: a category line adds to the category set of the record the pieces
    of what follows [CATEGORIES:], cut at every comma and otherwise
    untouched; the lines [CATEGORIES:A,B] and [CATEGORIES:B,C] together
    give the three categories A, B and C. *)
Theorem C7_categories_merged (c : VCFContact.t) (rest : string) :
  rest <> "" -> is_line rest = true ->
  VCFContact.add_line c ("CATEGORIES:" +:+ rest) =
    VCFContact.mk (VCFContact.phones c) (VCFContact.other_info c)
      (VCFContact.categories c ∪ list_to_set (split "," rest))
      (VCFContact.prefix c) (VCFContact.first_name c) (VCFContact.surname c)
      (VCFContact.middle_name c) (VCFContact.suffix c) /\
  join "," (split "," rest) = rest /\
  VCFContact.categories
    (VCFContact.add_line (VCFContact.add_line c "CATEGORIES:A,B") "CATEGORIES:B,C") =
    VCFContact.categories c ∪ list_to_set ["A"; "B"; "C"] /\
  VCFContact.categories (build_contact ["CATEGORIES:A,B"; "CATEGORIES:B,C"]) =
    list_to_set ["A"; "B"; "C"] /\
  size (VCFContact.categories (build_contact ["CATEGORIES:A,B"; "CATEGORIES:B,C"])) = 3 /\
  VCFContact.categories (build_contact ["CATEGORIES:A, B "]) = list_to_set ["A"; " B "].
Proof.
  intros Hne Hl. split; [|split; [|split; [|split; [|split]]]].
  - rewrite add_line_category. by apply add_category_match.
  - apply (join_split ","%char).
  - change "CATEGORIES:B,C" with ("CATEGORIES:" +:+ "B,C").
    change "CATEGORIES:A,B" with ("CATEGORIES:" +:+ "A,B").
    rewrite !add_line_category, !add_category_match by done. simpl.
    rewrite <- (assoc_L (∪)). f_equal.
  - by vm_compute.
  - by vm_compute.
  - by vm_compute.
Qed.

Lemma C7_categories_merged_witness :
  VCFContact.categories (VCFContact.add_line VCFContact.__init__ ("CATEGORIES:" +:+ "x, y,")) =
    ∅ ∪ list_to_set ["x"; " y"; ""].
Proof.
  refine (f_equal VCFContact.categories
            (proj1 (C7_categories_merged VCFContact.__init__ "x, y," _ _)));
    [discriminate | reflexivity].
Defined.

Lemma split_four (rest : string) :
  4 <= count_char ";" rest ->
  exists a b c d e,
    rest = a +:+ ";" +:+ b +:+ ";" +:+ c +:+ ";" +:+ d +:+ ";" +:+ e /\
    split ";" rest = a :: b :: c :: d :: split ";" e /\
    lacks ";" a = true /\ lacks ";" b = true /\ lacks ";" c = true /\
    lacks ";" d = true.
Proof.
  intros Hn. pose proof (split_count ";" rest) as Hlen.
  pose proof (split_all_lack ";" rest) as Hall.
  destruct (split ";" rest) as [|a [|b [|c [|d [|x t]]]]] eqn:E; simpl in Hlen; try lia.
  destruct (split_cons_inv _ _ _ _ _ E) as (s1 & -> & E1).
  destruct (split_cons_inv _ _ _ _ _ E1) as (s2 & -> & E2).
  destruct (split_cons_inv _ _ _ _ _ E2) as (s3 & -> & E3).
  destruct (split_cons_inv _ _ _ _ _ E3) as (s4 & -> & E4).
  exists a, b, c, d, s4. rewrite E4.
  apply Forall_cons in Hall as [Ha Hall].
  apply Forall_cons in Hall as [Hb Hall].
  apply Forall_cons in Hall as [Hc Hall].
  apply Forall_cons in Hall as [Hd _].
  done.
Qed.

(** C9: a line [N:] followed by a text with four [;] or more is taken by
    [add_name]: the first four fields are stored and the suffix is set
    to the empty text, whatever follows the fourth [;]. *)
Theorem C9_suffix_always_empty (c : VCFContact.t) (rest : string) :
  4 <= count_char ";" rest ->
  Forall (fun f => is_line f = true) (take 4 (split ";" rest)) ->
  let fields := split ";" rest in
  VCFContact.add_name c ("N:" +:+ rest) =
    VCFContact.mk (VCFContact.phones c) (VCFContact.other_info c) (VCFContact.categories c)
      (nth 3 fields "") (nth 1 fields "") (nth 0 fields "") (nth 2 fields "") "" /\
  VCFContact.add_line c ("N:" +:+ rest) = VCFContact.add_name c ("N:" +:+ rest) /\
  VCFContact.suffix (VCFContact.add_line c ("N:" +:+ rest)) = "" /\
  VCFContact.get_name_line (VCFContact.add_line c "N:Doe;Jane;Q;Dr;Jr") = "N:Doe;Jane;Q;Dr;".
Proof.
  intros Hn Hlines fields.
  destruct (split_four rest Hn) as (a & b & x & d & e & Hrest & Hsplit & Ha & Hb & Hx & Hd).
  unfold fields. rewrite Hsplit in *. simpl in Hlines.
  apply Forall_cons in Hlines as [La Hlines].
  apply Forall_cons in Hlines as [Lb Hlines].
  apply Forall_cons in Hlines as [Lx Hlines].
  apply Forall_cons in Hlines as [Ld _]. subst rest.
  assert (Hname :
    VCFContact.add_name c ("N:" +:+ a +:+ ";" +:+ b +:+ ";" +:+ x +:+ ";" +:+ d +:+ ";" +:+ e) =
    VCFContact.mk (VCFContact.phones c) (VCFContact.other_info c) (VCFContact.categories c)
      d b a x "").
  { unfold VCFContact.add_name. by rewrite name_pattern_match. }
  split; [exact Hname|]. split; [apply add_line_name|]. split.
  - rewrite add_line_name. by rewrite Hname.
  - by vm_compute.
Qed.

Lemma C9_suffix_always_empty_witness :
  VCFContact.suffix (VCFContact.add_line VCFContact.__init__ ("N:" +:+ "Doe;Jane;;;Jr;III")) = "".
Proof.
  refine (proj1 (proj2 (proj2
            (C9_suffix_always_empty VCFContact.__init__ "Doe;Jane;;;Jr;III" _ _)))).
  - vm_compute. lia.
  - repeat constructor.
Defined.

(** ** Phones of a record *)

Lemma re_match_Lit_inv (l : string) (r : regex) (s : string) (gs : list string) :
  re_match (Lit l :: r) s = Some gs -> exists s', s = l +:+ s' /\ re_match r s' = Some gs.
Proof.
  cbn [re_match]. destruct (strip_prefix l s) as [s'|] eqn:E; [|done].
  intros H. exists s'. split; [by apply strip_prefix_Some|done].
Qed.

Lemma from_vcf_line_inv (line : string) (ph : PhoneNumber.t) :
  PhoneNumber.from_vcf_line line false = Return ph ->
  phone_ok ph /\ exists r, line = "TEL;" +:+ r.
Proof.
  unfold PhoneNumber.from_vcf_line.
  destruct (re_match PhoneNumber.__phone_pattern line) as [gs|] eqn:E; [|done].
  apply re_match_Lit_inv in E as (r & -> & _).
  destruct (gs !! 0%nat); [|done]. destruct (gs !! 1%nat); [|done].
  intros [= <-]. split; [|by exists r]. split; [done|]. apply filter_chars_forallb.
Qed.

Lemma phone_eq_spec (p q : PhoneNumber.t) :
  PhoneNumber.__eq__ p q = true <->
  PhoneNumber.number p = PhoneNumber.number q /\
  PhoneNumber.phone_type p = PhoneNumber.phone_type q.
Proof.
  unfold PhoneNumber.__eq__. simpl.
  by rewrite andb_true_iff, !String.eqb_eq.
Qed.

Lemma phone_ext (p q : PhoneNumber.t) :
  PhoneNumber.number p = PhoneNumber.number q ->
  PhoneNumber.phone_type p = PhoneNumber.phone_type q -> p = q.
Proof. destruct p, q. simpl. by intros -> ->. Qed.

Lemma add_phone_phones (c : VCFContact.t) (line : string) (ph : PhoneNumber.t) :
  PhoneNumber.from_vcf_line line false = Return ph ->
  VCFContact.phones (VCFContact.add_line c line) = {[ ph ]} ∪ VCFContact.phones c.
Proof.
  intros H. destruct (from_vcf_line_inv _ _ H) as [_ [r ->]].
  rewrite add_line_phone. unfold VCFContact.add_phone. by rewrite H.
Qed.

Lemma add_line_phones_mono (c : VCFContact.t) (line : string) :
  VCFContact.phones c ⊆ VCFContact.phones (VCFContact.add_line c line).
Proof.
  unfold VCFContact.add_line.
  destruct (VCFContact.is_service_line line); [done|].
  destruct (VCFContact.is_name_line line).
  { unfold VCFContact.add_name.
    destruct (re_match _ line) as [[|? [|? [|? [|? [|? [|]]]]]]|]; done. }
  destruct (VCFContact.is_phone_line line).
  { unfold VCFContact.add_phone.
    destruct (PhoneNumber.from_vcf_line line false) as [ph|[msg]]; [|done].
    simpl. apply union_subseteq_r. }
  destruct (VCFContact.is_category_line line).
  { unfold VCFContact.add_category.
    destruct (re_match _ line) as [gs|]; [|done]. by destruct (gs !! 0%nat). }
  by destruct (VCFContact.is_full_name_line line).
Qed.

Lemma add_line_phones_ok (c : VCFContact.t) (line : string) :
  set_Forall phone_ok (VCFContact.phones c) ->
  set_Forall phone_ok (VCFContact.phones (VCFContact.add_line c line)).
Proof.
  intros Hc. unfold VCFContact.add_line.
  destruct (VCFContact.is_service_line line); [done|].
  destruct (VCFContact.is_name_line line).
  { unfold VCFContact.add_name.
    destruct (re_match _ line) as [[|? [|? [|? [|? [|? [|]]]]]]|]; done. }
  destruct (VCFContact.is_phone_line line).
  { unfold VCFContact.add_phone.
    destruct (PhoneNumber.from_vcf_line line false) as [ph|[msg]] eqn:E; [|done].
    simpl. apply set_Forall_union; [|done]. apply set_Forall_singleton.
    by apply from_vcf_line_inv in E as [? _]. }
  destruct (VCFContact.is_category_line line).
  { unfold VCFContact.add_category.
    destruct (re_match _ line) as [gs|]; [|done]. by destruct (gs !! 0%nat). }
  by destruct (VCFContact.is_full_name_line line).
Qed.

Lemma fold_add_line_phones_mono (ls : list string) (c : VCFContact.t) :
  VCFContact.phones c ⊆ VCFContact.phones (fold_left VCFContact.add_line ls c).
Proof.
  revert c. induction ls as [|l ls IH]; intros c; [done|]. simpl.
  etrans; [apply (add_line_phones_mono c l)|apply IH].
Qed.

Lemma fold_add_line_phones_ok (ls : list string) (c : VCFContact.t) :
  set_Forall phone_ok (VCFContact.phones c) ->
  set_Forall phone_ok (VCFContact.phones (fold_left VCFContact.add_line ls c)).
Proof.
  revert c. induction ls as [|l ls IH]; intros c Hc; [done|]. simpl.
  apply IH. by apply add_line_phones_ok.
Qed.

Lemma build_contact_phones_ok (ls : list string) :
  set_Forall phone_ok (VCFContact.phones (build_contact ls)).
Proof. apply fold_add_line_phones_ok. intros p Hp. by apply not_elem_of_empty in Hp. Qed.

Lemma build_contact_has_phone (ls : list string) (line : string) (ph : PhoneNumber.t) :
  line ∈ ls -> PhoneNumber.from_vcf_line line false = Return ph ->
  ph ∈ VCFContact.phones (build_contact ls).
Proof.
  intros [l1 [l2 ->]]%list_elem_of_split H. unfold build_contact.
  rewrite fold_left_app. simpl.
  apply fold_add_line_phones_mono. rewrite (add_phone_phones _ _ _ H).
  apply elem_of_union_l. by apply elem_of_singleton.
Qed.

Lemma str_ok (p : PhoneNumber.t) :
  phone_ok p -> PhoneNumber.__str__ p = "TEL;TYPE=CELL:" +:+ PhoneNumber.number p.
Proof. intros [Ht _]. unfold PhoneNumber.__str__. by rewrite Ht. Qed.

Lemma str_inj_ok (p q : PhoneNumber.t) :
  phone_ok p -> phone_ok q -> PhoneNumber.__str__ p = PhoneNumber.__str__ q -> p = q.
Proof.
  intros Hp Hq. rewrite (str_ok p Hp), (str_ok q Hq).
  intros H%(inj (String.app _)). apply phone_ext; [done|].
  destruct Hp as [-> _], Hq as [-> _]. done.
Qed.

Section PhoneLines.
Context `{!SetIteration}.

Lemma set_iter_elem_of `{Countable A} (X : gset A) (x : A) : x ∈ set_iter X <-> x ∈ X.
Proof. by rewrite set_iter_perm, elem_of_elements. Qed.

Lemma set_iter_NoDup `{Countable A} (X : gset A) : NoDup (set_iter X).
Proof. rewrite set_iter_perm. apply NoDup_elements. Qed.

Lemma get_sorted_phones_NoDup (c : VCFContact.t) :
  set_Forall phone_ok (VCFContact.phones c) ->
  NoDup (VCFContact.get_sorted_phones c).
Proof.
  intros Hc. unfold VCFContact.get_sorted_phones. rewrite sorted_perm.
  apply NoDup_fmap_2_strong; [|apply set_iter_NoDup].
  intros p q Hp%set_iter_elem_of Hq%set_iter_elem_of. apply str_inj_ok; by apply Hc.
Qed.

Lemma get_sorted_phones_elem (c : VCFContact.t) (ph : PhoneNumber.t) :
  ph ∈ VCFContact.phones c -> PhoneNumber.__str__ ph ∈ VCFContact.get_sorted_phones c.
Proof.
  intros Hp. unfold VCFContact.get_sorted_phones. rewrite sorted_perm.
  apply list_elem_of_fmap_2. by apply set_iter_elem_of.
Qed.

(** C2: two phone lines with the same digits and the same type parse to
    equal phones (equality looks at the number and the type, and equal
    phones have the same hash); the record keeps one of them and one line
    is written for both. *)
Theorem C2_duplicate_phones_collapse (l1 l2 : string) (preserve_type : bool)
    (ph1 ph2 : PhoneNumber.t) :
  PhoneNumber.from_vcf_line l1 preserve_type = Return ph1 ->
  PhoneNumber.from_vcf_line l2 preserve_type = Return ph2 ->
  PhoneNumber.number ph1 = PhoneNumber.number ph2 ->
  PhoneNumber.phone_type ph1 = PhoneNumber.phone_type ph2 ->
  (ph1 = ph2 /\ PhoneNumber.__eq__ ph1 ph2 = true /\
   forall hash, PhoneNumber.__hash__ hash ph1 = PhoneNumber.__hash__ hash ph2) /\
  (forall p q, PhoneNumber.__eq__ p q = true <->
     PhoneNumber.number p = PhoneNumber.number q /\
     PhoneNumber.phone_type p = PhoneNumber.phone_type q) /\
  (preserve_type = false ->
   (forall c,
      VCFContact.phones (VCFContact.add_line (VCFContact.add_line c l1) l2) =
        VCFContact.phones (VCFContact.add_line c l1)) /\
   size (VCFContact.phones (build_contact [l1; l2])) = 1 /\
   VCFContact.get_sorted_phones (build_contact [l1; l2]) = [PhoneNumber.__str__ ph1] /\
   (forall ls, l1 ∈ ls -> l2 ∈ ls ->
      PhoneNumber.__str__ ph1 ∈ VCFContact.get_sorted_phones (build_contact ls) /\
      NoDup (VCFContact.get_sorted_phones (build_contact ls)))).
Proof.
  intros H1 H2 Hn Ht. assert (ph1 = ph2) as <- by by apply phone_ext.
  split; [|split].
  - split; [done|]. split; [by apply phone_eq_spec|done].
  - apply phone_eq_spec.
  - intros ->.
    assert (Hboth : VCFContact.phones (build_contact [l1; l2]) = {[ ph1 ]}).
    { unfold build_contact. cbn [fold_left].
      rewrite (add_phone_phones _ l2 ph1 H2), (add_phone_phones _ l1 ph1 H1).
      cbn [VCFContact.phones VCFContact.__init__].
      by rewrite (right_id_L ∅ (∪)), (idemp_L (∪)). }
    split; [|split; [|split]].
    + intros c. rewrite (add_phone_phones _ l2 ph1 H2), (add_phone_phones _ l1 ph1 H1).
      by rewrite (assoc_L (∪)), (idemp_L (∪)).
    + rewrite Hboth. apply size_singleton.
    + unfold VCFContact.get_sorted_phones. rewrite Hboth.
      apply sorted_unique; [apply sorted_sorted|repeat constructor|].
      by rewrite sorted_perm, set_iter_perm, elements_singleton.
    + intros ls Hl1 Hl2. split.
      * apply get_sorted_phones_elem. by apply (build_contact_has_phone ls l1).
      * apply get_sorted_phones_NoDup, build_contact_phones_ok.
Qed.
End PhoneLines.

Lemma C2_duplicate_phones_collapse_witness :
  @VCFContact.get_sorted_phones elements_order
    (build_contact ["TEL;TYPE=CELL:555-111-2222"; "TEL;TYPE=HOME:5551112222"]) =
    ["TEL;TYPE=CELL:5551112222"].
Proof.
  refine (proj1 (proj2 (proj2 (proj2 (proj2
    (@C2_duplicate_phones_collapse elements_order
       "TEL;TYPE=CELL:555-111-2222" "TEL;TYPE=HOME:5551112222" false
       (PhoneNumber.mk "5551112222" "CELL") (PhoneNumber.mk "5551112222" "CELL")
       _ _ _ _)) _)))); reflexivity.
Defined.

(** ** The name pattern, completely *)

Lemma span_app (p : ascii -> bool) (s : string) : s = (span p s).1 +:+ (span p s).2.
Proof.
  induction s as [|c s IH]; [done|]. simpl.
  destruct (p c); [|done]. destruct (span p s) as [a b]. simpl in *.
  by rewrite app_cons_s, <- IH.
Qed.

Lemma lazy_star_short (n : nat) (s : string) :
  (forall t, separators t < n -> re_match (name_tail n) t = None) ->
  separators s < S n ->
  lazy_star is_dot (re_match (Lit ";" :: name_tail n)) s = None.
Proof.
  intros IHn. induction s as [|x s IH]; intros Hs.
  - done.
  - cbn [lazy_star].
    assert (Hk : re_match (Lit ";" :: name_tail n) (String x s) = None).
    { cbn [re_match strip_prefix]. destruct (Ascii.eqb_spec ";" x) as [<-|]; [|done].
      apply IHn. unfold separators in *. simpl in Hs.
      destruct (span is_dot s) as [a b]. simpl in *. lia. }
    rewrite Hk. destruct (is_dot x) eqn:Hx; [|done].
    rewrite IH; [done|]. unfold separators in *. simpl in Hs. rewrite Hx in Hs.
    destruct (span is_dot s) as [a b]. simpl in *.
    destruct (Ascii.eqb x ";"); lia.
Qed.

Lemma name_tail_short (n : nat) (s : string) :
  separators s < n -> re_match (name_tail n) s = None.
Proof.
  revert s. induction n as [|n IHn]; intros s Hs; [lia|].
  change (re_match (name_tail (S n)) s)
    with (match lazy_star is_dot (re_match (Lit ";" :: name_tail n)) s with
          | Some (g, gs) => Some (g :: gs) | None => None end).
  by rewrite lazy_star_short.
Qed.

Lemma name_pattern_short (rest : string) :
  separators rest < 4 -> re_match VCFContact.__name_pattern ("N:" +:+ rest) = None.
Proof.
  intros H. change VCFContact.__name_pattern with (Lit "N:" :: name_tail 4).
  rewrite re_match_Lit. by apply name_tail_short.
Qed.

Lemma split_four_first_line (rest : string) :
  4 <= separators rest ->
  exists a b c d e,
    rest = a +:+ ";" +:+ b +:+ ";" +:+ c +:+ ";" +:+ d +:+ ";" +:+ e /\
    field_ok a /\ field_ok b /\ field_ok c /\ field_ok d.
Proof.
  intros Hn. unfold separators in Hn.
  pose proof (span_app is_dot rest) as Hrest.
  pose proof (span_fst_forallb is_dot rest) as Hdot.
  destruct (span is_dot rest) as [first others]. simpl in *.
  destruct (split_four first Hn) as (a & b & c & d & e & -> & _ & Ha & Hb & Hc & Hd).
  exists a, b, c, d, (e +:+ others). split.
  - rewrite Hrest. by rewrite !app_assoc_s.
  - rewrite !forallb_chars_app in Hdot. simpl in Hdot.
    repeat (apply andb_true_iff in Hdot as [? Hdot]).
    unfold field_ok, is_line, lacks. naive_solver.
Qed.

(** [add_name] on any line: either nothing changes, or the four fields
    stored are well formed and the suffix is empty. *)
Lemma add_name_cases (c : VCFContact.t) (line : string) :
  VCFContact.add_name c line = c \/
  exists a b x d,
    field_ok a /\ field_ok b /\ field_ok x /\ field_ok d /\
    VCFContact.add_name c line =
      VCFContact.mk (VCFContact.phones c) (VCFContact.other_info c)
        (VCFContact.categories c) d b a x "".
Proof.
  unfold VCFContact.add_name.
  destruct (re_match VCFContact.__name_pattern line) as [gs|] eqn:E; [|by left].
  pose proof E as E'.
  change VCFContact.__name_pattern with (Lit "N:" :: name_tail 4) in E'.
  apply re_match_Lit_inv in E' as (rest & -> & _).
  destruct (decide (4 <= separators rest)) as [Hn|Hn].
  - destruct (split_four_first_line rest Hn) as (a & b & x & d & e & -> & Ha & Hb & Hx & Hd).
    rewrite name_pattern_match in E by apply Ha || apply Hb || apply Hx || apply Hd.
    injection E as <-. right. by exists a, b, x, d.
  - rewrite name_pattern_short in E by lia. done.
Qed.

(** ** What the parser guarantees of a record *)

Lemma split_forallb (p : ascii -> bool) (sep : ascii) (s : string) :
  forallb_chars p s = true ->
  Forall (fun t => forallb_chars p t = true) (split sep s).
Proof.
  induction s as [|c s IH]; simpl; [by repeat constructor|].
  intros [Hc Hs]%andb_true_iff. specialize (IH Hs).
  destruct (Ascii.eqb c sep); [by constructor|].
  pose proof (split_not_nil sep s).
  destruct (split sep s) as [|h t]; [done|].
  apply Forall_cons in IH as [Hh Ht]. constructor; [|done]. simpl. by rewrite Hc.
Qed.

Lemma add_name_parsed_ok (c : VCFContact.t) (line : string) :
  parsed_ok c -> parsed_ok (VCFContact.add_name c line).
Proof.
  intros Hc. destruct (add_name_cases c line) as [->|(a & b & x & d & ? & ? & ? & ? & ->)];
    [done|].
  destruct Hc as (Hp & Hcat & _). unfold parsed_ok. simpl. intuition.
Qed.

Lemma add_phone_parsed_ok (c : VCFContact.t) (line : string) :
  parsed_ok c -> parsed_ok (VCFContact.add_phone c line).
Proof.
  intros Hc. unfold VCFContact.add_phone.
  destruct (PhoneNumber.from_vcf_line line false) as [ph|[msg]] eqn:E; [|done].
  destruct Hc as (Hp & Hrest). split; [|done]. simpl.
  apply set_Forall_union; [|done]. apply set_Forall_singleton.
  by apply from_vcf_line_inv in E as [? _].
Qed.

Lemma add_category_parsed_ok (c : VCFContact.t) (line : string) :
  parsed_ok c -> parsed_ok (VCFContact.add_category c line).
Proof.
  intros Hc. unfold VCFContact.add_category.
  destruct (re_match VCFContact.__category_pattern line) as [gs|] eqn:E; [|done].
  pose proof E as E'. apply re_match_Lit_inv in E' as (rest & -> & _).
  change (VCFContact.__category +:+ rest) with ("CATEGORIES:" +:+ rest) in E.
  rewrite category_pattern_match in E.
  destruct (String.eqb (span is_dot rest).1 ""); [done|]. injection E as <-. simpl.
  destruct Hc as (Hp & Hcat & Hrest). split; [done|]. split; [|done]. simpl.
  apply set_Forall_union; [done|].
  intros t Ht%elem_of_list_to_set. split.
  - pose proof (split_forallb is_dot "," _ (span_fst_forallb is_dot rest)) as Hall.
    rewrite Forall_forall in Hall. by apply Hall.
  - pose proof (split_all_lack "," (span is_dot rest).1) as Hall.
    rewrite Forall_forall in Hall. by apply Hall.
Qed.

Lemma add_line_parsed_ok (c : VCFContact.t) (line : string) :
  parsed_ok c -> parsed_ok (VCFContact.add_line c line).
Proof.
  intros Hc. unfold VCFContact.add_line.
  destruct (VCFContact.is_service_line line); [done|].
  destruct (VCFContact.is_name_line line); [by apply add_name_parsed_ok|].
  destruct (VCFContact.is_phone_line line); [by apply add_phone_parsed_ok|].
  destruct (VCFContact.is_category_line line); [by apply add_category_parsed_ok|].
  by destruct (VCFContact.is_full_name_line line).
Qed.

Lemma init_parsed_ok : parsed_ok VCFContact.__init__.
Proof.
  split; [|split]; [by intros p Hp%not_elem_of_empty..|]. by repeat split.
Qed.

Lemma build_contact_parsed_ok (ls : list string) : parsed_ok (build_contact ls).
Proof.
  unfold build_contact. generalize init_parsed_ok. generalize VCFContact.__init__.
  induction ls as [|l ls IH]; intros c Hc; [done|]. simpl.
  apply IH. by apply add_line_parsed_ok.
Qed.

Lemma parse_lines_parsed_ok (ls : list string) : Forall parsed_ok (parse_lines ls).
Proof.
  unfold parse_lines. apply Forall_fmap, Forall_forall. intros g _.
  apply build_contact_parsed_ok.
Qed.

(** ** The lines of the written file *)

Lemma join_cons2 (sep x y : string) (l : list string) :
  join sep (x :: y :: l) = x +:+ sep +:+ join sep (y :: l).
Proof. done. Qed.

Lemma join_app_blank (A B : list string) :
  B <> [] -> join nl (A ++ [""]) +:+ join nl B = join nl (A ++ B).
Proof.
  intros HB. induction A as [|x A IH].
  - done.
  - destruct B as [|b B]; [done|].
    assert (HA : exists y l, A ++ [""] = y :: l).
    { destruct A; simpl; eauto. }
    destruct HA as (y & l & HA).
    assert (HAB : exists y' l', A ++ b :: B = y' :: l').
    { destruct A; simpl; eauto. }
    destruct HAB as (y' & l' & HAB).
    rewrite <- !app_comm_cons.
    rewrite HA, join_cons2, <- HA, HAB, join_cons2, <- HAB, <- IH.
    by rewrite !app_assoc_s.
Qed.

Lemma join_forallb (p : ascii -> bool) (sep : string) (l : list string) :
  forallb_chars p sep = true -> Forall (fun t => forallb_chars p t = true) l ->
  forallb_chars p (join sep l) = true.
Proof.
  intros Hsep Hl. induction Hl as [|x l Hx Hl IH]; [done|].
  destruct l as [|y l]; [done|].
  rewrite join_cons2, !forallb_chars_app. by rewrite Hx, Hsep, IH.
Qed.

Lemma join_eq_empty (sep : ascii) (l : list string) :
  join (String sep "") l = "" -> l = [] \/ l = [""].
Proof.
  destruct l as [|x [|y l]]; simpl; [by left| |].
  - intros ->. by right.
  - destruct x; done.
Qed.

Lemma plus_or_digit_is_dot (s : string) :
  forallb_chars is_plus_or_digit s = true -> is_line s = true.
Proof.
  apply forallb_chars_impl. intros c Hc. unfold is_dot.
  destruct (Ascii.eqb_spec c LF) as [->|]; done.
Qed.

Section FileLines.
Context `{!SetIteration}.

Lemma to_vcf_block (c : VCFContact.t) :
  VCFContact._to_vcf c default_version false = join nl (block_lines c ++ [""]).
Proof.
  unfold VCFContact._to_vcf, block_lines, body_lines, category_lines.
  rewrite get_categories_truthy. unfold VCFContact.get_categories.
  destruct (decide (VCFContact.categories c = ∅)); simpl; by rewrite <- ?app_assoc.
Qed.

Lemma file_lines_not_nil (cs : list VCFContact.t) : file_lines cs <> [].
Proof. unfold file_lines. by destruct (concat _). Qed.

Lemma rendered_cases (c : VCFContact.t) (v : string) (o : bool) :
  rendered v o c =
    if VCFContact.is_empty c then None else Some (VCFContact._to_vcf c v o).
Proof. unfold rendered, VCFContact.to_vcf. by destruct (VCFContact.is_empty c). Qed.

Lemma rendered_lines (cs : list VCFContact.t) :
  join "" (omap (rendered default_version false) cs) = join nl (file_lines cs).
Proof.
  unfold file_lines, written. induction cs as [|c cs IH]; [done|].
  cbn [omap list_omap List.filter]. rewrite rendered_cases.
  destruct (VCFContact.is_empty c); [done|]. cbn [negb fmap list_fmap concat].
  rewrite join_empty_cons, IH, to_vcf_block, <- app_assoc.
  apply join_app_blank, file_lines_not_nil.
Qed.

Lemma write_contacts_lines (cs : list VCFContact.t) :
  write_contacts_to_vcf_file cs default_version false = join nl (file_lines cs).
Proof.
  unfold write_contacts_to_vcf_file. rewrite write_contacts_acc.
  apply rendered_lines.
Qed.
End FileLines.

(** ** Reading back the written file *)

Lemma from_vcf_line_str (p : PhoneNumber.t) :
  phone_ok p -> PhoneNumber.number p <> "" ->
  PhoneNumber.from_vcf_line (PhoneNumber.__str__ p) false = Return p.
Proof.
  intros Hp Hn. rewrite (str_ok p Hp). destruct Hp as [Ht Hd].
  change ("TEL;TYPE=CELL:" +:+ PhoneNumber.number p)
    with ("TEL;TYPE=" +:+ "CELL" +:+ ":" +:+ PhoneNumber.number p).
  rewrite from_vcf_line_match; [|done|done|done|by apply plus_or_digit_is_dot].
  rewrite filter_chars_all by done. destruct p. simpl in *. by rewrite Ht.
Qed.

Lemma fold_group_step_kept (ls : list string) (P : list (list string)) (cur : list string) :
  Forall (fun l => VCFContact.is_service_line l = false) ls ->
  fold_left group_step ls (P, cur) = (P, cur ++ ls).
Proof.
  intros H. revert cur. induction H as [|l ls Hl Hls IH]; intros cur.
  - by rewrite app_nil_r.
  - cbn [fold_left].
    assert (group_step (P, cur) l = (P, cur ++ [l])) as ->.
    { unfold group_step. rewrite Hl.
      unfold VCFContact.is_service_line in Hl.
      apply orb_false_iff in Hl as [[_ He]%orb_false_iff _]. by rewrite He. }
    by rewrite IH, <- app_assoc.
Qed.


Lemma fold_blanks (cur : list string) (c0 : VCFContact.t) :
  Forall (fun l => l = "") cur -> same_output c0 VCFContact.__init__ ->
  same_output (fold_left VCFContact.add_line cur c0) VCFContact.__init__.
Proof.
  revert c0. induction cur as [|l cur IH]; intros c0 Hcur Hc0; [done|].
  apply Forall_cons in Hcur as [-> Hcur]. simpl. by apply IH.
Qed.

Section ReadBack.
Context `{!SetIteration}.

Lemma sorted_phones_as_map (c : VCFContact.t) :
  exists ps, VCFContact.get_sorted_phones c = PhoneNumber.__str__ <$> ps /\
             ps ≡ₚ elements (VCFContact.phones c).
Proof.
  unfold VCFContact.get_sorted_phones.
  destruct (Permutation_map_inv PhoneNumber.__str__ (set_iter (VCFContact.phones c))
              (sorted_perm _)) as (ps & Hps & Hperm).
  exists ps. split; [done|]. by rewrite <- Hperm, set_iter_perm.
Qed.

End ReadBack.

Lemma Forall_list_filter {A} (P : A -> Prop) (f : A -> bool) (l : list A) :
  Forall P l -> Forall P (List.filter f l).
Proof.
  induction 1 as [|x l Hx Hl IH]; simpl; [done|].
  destruct (f x); [by constructor|done].
Qed.

Section WrittenLines.
Context `{!SetIteration}.

Lemma sorted_phones_shape (c : VCFContact.t) :
  parsed_ok c ->
  Forall (fun l => exists n, l = "TEL;TYPE=CELL:" +:+ n /\ is_line n = true)
         (VCFContact.get_sorted_phones c).
Proof.
  intros (Hph & _). destruct (sorted_phones_as_map c) as (ps & -> & Hperm).
  apply Forall_fmap, Forall_forall. intros p Hp. rewrite Hperm in Hp.
  apply elem_of_elements, Hph in Hp. simpl.
  exists (PhoneNumber.number p). split; [by apply str_ok|].
  apply plus_or_digit_is_dot, Hp.
Qed.

Lemma category_lines_shape (c : VCFContact.t) :
  parsed_ok c ->
  Forall (fun l => exists r, l = "CATEGORIES:" +:+ r /\ is_line r = true) (category_lines c).
Proof.
  intros (_ & Hcat & _). unfold category_lines.
  destruct (decide _); constructor; [|done]. eexists. split; [done|].
  apply join_forallb; [done|]. apply Forall_forall.
  intros t Ht%set_iter_elem_of. by apply Hcat.
Qed.

Lemma full_name_is_line (c : VCFContact.t) :
  parsed_ok c -> is_line (VCFContact.full_name c) = true.
Proof.
  intros (_ & _ & [Ls _] & [Lf _] & [Lm _] & [Lp _] & Hsuf).
  unfold VCFContact.full_name. apply join_forallb; [done|].
  apply Forall_list_filter. unfold VCFContact.full_name_parts. rewrite Hsuf.
  by repeat constructor.
Qed.

Lemma name_line_is_line (c : VCFContact.t) :
  parsed_ok c -> is_line (VCFContact.get_name_line c) = true.
Proof.
  intros (_ & _ & [Ls _] & [Lf _] & [Lm _] & [Lp _] & Hsuf).
  unfold VCFContact.get_name_line. simpl. unfold is_line, lacks in *.
  rewrite Hsuf. change (String ";" ?x) with (";" +:+ x).
  rewrite !forallb_chars_app. by rewrite Ls, Lf, Lm, Lp.
Qed.

Lemma body_lines_are_lines (c : VCFContact.t) :
  parsed_ok c -> Forall (fun l => is_line l = true) (body_lines c).
Proof.
  intros Hc. unfold body_lines. repeat apply Forall_app_2.
  - repeat constructor.
    + pose proof (full_name_is_line c Hc) as Hf.
      unfold VCFContact.get_full_name_line, is_line, lacks in *.
      rewrite forallb_chars_app. by rewrite Hf.
    + by apply name_line_is_line.
  - eapply Forall_impl; [by apply category_lines_shape|].
    intros l (r & -> & Hr). unfold is_line, lacks in *.
    by rewrite forallb_chars_app, Hr.
  - eapply Forall_impl; [by apply sorted_phones_shape|].
    intros l (r & -> & Hr). unfold is_line, lacks in *.
    by rewrite forallb_chars_app, Hr.
Qed.

Lemma body_lines_kept (c : VCFContact.t) :
  parsed_ok c -> Forall (fun l => VCFContact.is_service_line l = false) (body_lines c).
Proof.
  intros Hc. unfold body_lines. repeat apply Forall_app_2.
  - by repeat constructor.
  - eapply Forall_impl; [by apply category_lines_shape|]. by intros l (r & -> & _).
  - eapply Forall_impl; [by apply sorted_phones_shape|]. by intros l (r & -> & _).
Qed.

Lemma file_lines_are_lines (cs : list VCFContact.t) :
  Forall parsed_ok cs -> Forall (fun l => is_line l = true) (file_lines cs).
Proof.
  intros Hcs. unfold file_lines. apply Forall_app_2; [|by repeat constructor].
  apply Forall_concat, Forall_fmap, Forall_forall. intros c Hc. simpl.
  assert (parsed_ok c) as Hok.
  { rewrite Forall_forall in Hcs. apply Hcs.
    unfold written in Hc. apply list_elem_of_In, filter_In in Hc as [Hc _].
    by apply list_elem_of_In. }
  unfold block_lines. apply Forall_app_2; [by repeat constructor|].
  apply Forall_app_2; [by apply body_lines_are_lines|by repeat constructor].
Qed.

Lemma fold_blocks (cs : list VCFContact.t) (tail : list string)
    (P : list (list string)) (cur : list string) :
  Forall parsed_ok cs ->
  fold_left group_step (concat (block_lines <$> cs) ++ tail) (P, cur) =
    fold_left group_step tail
      (P ++ groups_of cur cs, match cs with [] => cur | _ => [""] end).
Proof.
  intros Hcs. revert P cur. induction Hcs as [|c cs Hc Hcs IH]; intros P cur.
  - simpl. by rewrite app_nil_r.
  - cbn [fmap list_fmap concat]. unfold block_lines at 1.
    rewrite <- !app_assoc. cbn [app fold_left].
    change (group_step (group_step (P, cur) "BEGIN:VCARD") ("VERSION:" +:+ default_version))
      with (P, cur).
    rewrite fold_left_app, (fold_group_step_kept _ _ _ (body_lines_kept c Hc)).
    cbn [fold_left].
    change (group_step (group_step (P, cur ++ body_lines c) "END:VCARD") "")
      with (P ++ [cur ++ body_lines c], [""]).
    rewrite IH. cbn [groups_of]. rewrite <- app_assoc. simpl.
    by destruct cs.
Qed.

Lemma parse_file_lines (cs : list VCFContact.t) :
  Forall parsed_ok cs ->
  parse_vcf_file (join nl (file_lines cs)) = build_contact <$> groups_of [] (written cs).
Proof.
  intros Hcs. unfold parse_vcf_file, nl.
  rewrite split_join;
    [|apply file_lines_not_nil|by apply file_lines_are_lines].
  unfold parse_lines, file_lines. rewrite fold_blocks.
  - by rewrite fold_group_step_no_end by by repeat constructor.
  - by apply Forall_list_filter.
Qed.


End WrittenLines.

(** ** Cleaning twice *)




(** ** The dispatch of [add_line] *)

Lemma add_line_effect (c : VCFContact.t) (line : string) :
  VCFContact.add_line c line = apply_effect (effect_of line) c.
Proof.
  unfold VCFContact.add_line, effect_of.
  destruct (VCFContact.is_service_line line); [done|].
  destruct (VCFContact.is_name_line line).
  { unfold VCFContact.add_name.
    by destruct (re_match _ line) as [[|? [|? [|? [|? [|? [|]]]]]]|]. }
  destruct (VCFContact.is_phone_line line).
  { unfold VCFContact.add_phone.
    by destruct (PhoneNumber.from_vcf_line line false) as [ph|[msg]]. }
  destruct (VCFContact.is_category_line line).
  { unfold VCFContact.add_category.
    by destruct (re_match _ line) as [[|g gs]|]. }
  by destruct (VCFContact.is_full_name_line line).
Qed.

Lemma apply_effect_twice (e : effect) (c : VCFContact.t) :
  apply_effect e (apply_effect e c) = apply_effect e c.
Proof.
  destruct e; simpl; try done; f_equal.
  - by rewrite (assoc_L (∪)), (idemp_L (∪)).
  - by rewrite <- (assoc_L (∪)), (idemp_L (∪)).
  - by rewrite (assoc_L (∪)), (idemp_L (∪)).
Qed.

Lemma apply_effect_comm (e1 e2 : effect) (c : VCFContact.t) :
  (forall a b x d s a' b' x' d' s',
      e1 = SetName a b x d s -> e2 = SetName a' b' x' d' s' -> e1 = e2) ->
  apply_effect e2 (apply_effect e1 c) = apply_effect e1 (apply_effect e2 c).
Proof.
  intros Hn. destruct e1, e2; simpl; try done; f_equal.
  - by injection (Hn _ _ _ _ _ _ _ _ _ _ eq_refl eq_refl).
  - by injection (Hn _ _ _ _ _ _ _ _ _ _ eq_refl eq_refl).
  - by injection (Hn _ _ _ _ _ _ _ _ _ _ eq_refl eq_refl).
  - by injection (Hn _ _ _ _ _ _ _ _ _ _ eq_refl eq_refl).
  - by injection (Hn _ _ _ _ _ _ _ _ _ _ eq_refl eq_refl).
  - by rewrite !(assoc_L (∪)), (comm_L (∪) {[phone0]}).
  - by rewrite <- !(assoc_L (∪)), (comm_L (∪) (list_to_set tokens)).
  - by rewrite !(assoc_L (∪)), (comm_L (∪) {[line0]}).
Qed.

(** X1: the seven tests of the classifier exclude one another, so that the
    order in which [add_line] and the grouping loop try them plays no
    role. *)
Theorem X1_classifier_tests_exclusive (line : string) :
  length (List.filter id (classifier_tests line)) <= 1.
Proof.
  unfold classifier_tests, VCFContact.is_start_of_contact, VCFContact.is_end_of_contact,
    VCFContact.is_version_line, VCFContact.is_name_line, VCFContact.is_phone_line,
    VCFContact.is_category_line, VCFContact.is_full_name_line, startswith.
  destruct line as [|[[] [] [] [] [] [] [] []] s]; cbn;
    repeat match goal with |- context [if ?b then _ else _] => destruct b; cbn end; lia.
Qed.

(** X2: feeding a record the same line twice is feeding it once. *)
Theorem X2_add_line_idempotent (c : VCFContact.t) (line : string) :
  VCFContact.add_line (VCFContact.add_line c line) line = VCFContact.add_line c line.
Proof. rewrite !add_line_effect. apply apply_effect_twice. Qed.

(** X3: two lines that are not both structured-name lines can be fed to a
    record in either order. *)
Theorem X3_add_line_commutes (c : VCFContact.t) (l1 l2 : string) :
  VCFContact.is_name_line l1 = false \/ VCFContact.is_name_line l2 = false ->
  VCFContact.add_line (VCFContact.add_line c l1) l2 =
    VCFContact.add_line (VCFContact.add_line c l2) l1.
Proof.
  intros H. rewrite !add_line_effect. apply apply_effect_comm.
  intros a b x d s a' b' x' d' s' H1 H2. exfalso.
  assert (Hname : forall l a b x d s, effect_of l = SetName a b x d s ->
            VCFContact.is_name_line l = true).
  { intros l ? ? ? ? ?. unfold effect_of.
    destruct (VCFContact.is_service_line l); [done|].
    destruct (VCFContact.is_name_line l); [done|].
    destruct (VCFContact.is_phone_line l).
    { by destruct (PhoneNumber.from_vcf_line l false). }
    destruct (VCFContact.is_category_line l).
    { by destruct (re_match _ l) as [[|? ?]|]. }
    by destruct (VCFContact.is_full_name_line l). }
  apply Hname in H1, H2. destruct H as [H|H]; congruence.
Qed.

Lemma X3_add_line_commutes_witness :
  VCFContact.add_line (VCFContact.add_line VCFContact.__init__ "TEL;TYPE=CELL:1") "N:Doe;Jane;;;" =
  VCFContact.add_line (VCFContact.add_line VCFContact.__init__ "N:Doe;Jane;;;") "TEL;TYPE=CELL:1".
Proof.
  apply (X3_add_line_commutes VCFContact.__init__ "TEL;TYPE=CELL:1" "N:Doe;Jane;;;").
  left. reflexivity.
Defined.

(** ** Phone lines, completely *)

Lemma greedy_star_inv (p : ascii -> bool) (k : string -> option (list string))
    (s g : string) (gs : list string) :
  greedy_star p k s = Some (g, gs) ->
  forallb_chars p g = true /\ exists s', s = g +:+ s' /\ k s' = Some gs.
Proof.
  revert g. induction s as [|c s IH]; intros g; simpl.
  - destruct (k "") eqn:E; [|done]. intros [= <- <-]. split; [done|]. by exists "".
  - assert (Hstop : match k (String c s) with Some gs0 => Some ("", gs0) | None => None end
                    = Some (g, gs) ->
                    forallb_chars p g = true /\
                    exists s', String c s = g +:+ s' /\ k s' = Some gs).
    { destruct (k (String c s)) eqn:E; [|done]. intros [= <- <-].
      split; [done|]. by exists (String c s). }
    destruct (p c) eqn:Hc; [|done].
    destruct (greedy_star p k s) as [[g' gs']|] eqn:E; [|done].
    intros [= <- <-]. destruct (IH g' eq_refl) as (Hg & s' & -> & Hk).
    split; [simpl; by rewrite Hc|]. by exists s'.
Qed.

Lemma re_match_plus_unfold (c : charclass) (r : regex) (s : string) :
  re_match (Group c GreedyPlus :: r) s =
    match greedy_plus (in_class c) (re_match r) s with
    | Some (g, gs) => Some (g :: gs)
    | None => None
    end.
Proof. done. Qed.

Lemma phone_pattern_inv (line : string) (gs : list string) :
  re_match PhoneNumber.__phone_pattern line = Some gs ->
  exists w rest,
    line = "TEL;TYPE=" +:+ w +:+ ":" +:+ rest /\ w <> "" /\
    forallb_chars is_word w = true /\ first_line rest <> "" /\
    gs = [w; first_line rest].
Proof.
  unfold PhoneNumber.__phone_pattern. intros H.
  apply re_match_Lit_inv in H as (s1 & -> & H).
  apply re_match_Lit_inv in H as (s2 & -> & H).
  rewrite re_match_plus_unfold in H. unfold greedy_plus in H.
  destruct s2 as [|c s2]; [done|]. cbn [in_class] in H.
  destruct (is_word c) eqn:Hc; [|done].
  destruct (greedy_star is_word _ s2) as [[g gs']|] eqn:E; [|done].
  apply greedy_star_inv in E as (Hg & s3 & -> & Hk).
  apply re_match_Lit_inv in Hk as (rest & -> & Hk).
  injection H as <-.
  exists (String c g), rest. split; [done|]. split; [done|].
  split; [simpl; by rewrite Hc|].
  rewrite re_match_plus_last in Hk. unfold first_line. cbn [in_class] in Hk.
  destruct (String.eqb_spec (span is_dot rest).1 ""); [done|].
  by injection Hk as <-.
Qed.

Lemma from_vcf_line_shape (w rest : string) (preserve_type : bool) :
  w <> "" -> forallb_chars is_word w = true -> first_line rest <> "" ->
  PhoneNumber.from_vcf_line ("TEL;TYPE=" +:+ w +:+ ":" +:+ rest) preserve_type =
    Return (PhoneNumber.mk (filter_chars is_plus_or_digit (first_line rest))
              (if preserve_type then upper w else "CELL")).
Proof.
  intros Hw1 Hw2 Hr. unfold PhoneNumber.from_vcf_line.
  rewrite phone_pattern_match by done. unfold first_line in *.
  destruct (String.eqb_spec (span is_dot rest).1 ""); [done|]. simpl.
  by destruct preserve_type.
Qed.

(** X4: on a line of ASCII characters, [from_vcf_line] returns a phone
    exactly when the line is [TEL;TYPE=<word>:<rest>] with a non-empty word
    and a [<rest>] that does not start with a line feed; the number comes
    from the first line of [<rest>] only.  On every other such line it
    raises "No line matched": the branch that raises "Not enough info in
    the line" is never taken. *)
Theorem X4_from_vcf_line_complete (line : string) (preserve_type : bool) :
  ascii_text line = true ->
  PhoneNumber.from_vcf_line line preserve_type = Raise (ValueError "No line matched") /\
    (forall w rest, line = "TEL;TYPE=" +:+ w +:+ ":" +:+ rest ->
       w = "" \/ forallb_chars is_word w = false \/ first_line rest = "") \/
  exists w rest,
    line = "TEL;TYPE=" +:+ w +:+ ":" +:+ rest /\ w <> "" /\
    forallb_chars is_word w = true /\ first_line rest <> "" /\
    PhoneNumber.from_vcf_line line preserve_type =
      Return (PhoneNumber.mk (filter_chars is_plus_or_digit (first_line rest))
                (if preserve_type then upper w else "CELL")).
Proof.
  intros _.
  destruct (re_match PhoneNumber.__phone_pattern line) as [gs|] eqn:E.
  - right. destruct (phone_pattern_inv line gs E) as (w & rest & -> & Hw1 & Hw2 & Hr & _).
    exists w, rest. repeat split; try done. by apply from_vcf_line_shape.
  - left. split; [unfold PhoneNumber.from_vcf_line; by rewrite E|].
    intros w rest ->.
    destruct (decide (w = "")) as [|Hw1]; [by left|].
    destruct (forallb_chars is_word w) eqn:Hw2; [|by right; left].
    right; right. rewrite phone_pattern_match in E by done. unfold first_line.
    by destruct (String.eqb_spec (span is_dot rest).1 "").
Qed.

Lemma X4_from_vcf_line_complete_witness :
  PhoneNumber.from_vcf_line "TEL;TYPE=home 1" true = Raise (ValueError "No line matched") /\
    (forall w rest, "TEL;TYPE=home 1" = "TEL;TYPE=" +:+ w +:+ ":" +:+ rest ->
       w = "" \/ forallb_chars is_word w = false \/ first_line rest = "") \/
  exists w rest,
    "TEL;TYPE=home 1" = "TEL;TYPE=" +:+ w +:+ ":" +:+ rest /\ w <> "" /\
    forallb_chars is_word w = true /\ first_line rest <> "" /\
    PhoneNumber.from_vcf_line "TEL;TYPE=home 1" true =
      Return (PhoneNumber.mk (filter_chars is_plus_or_digit (first_line rest))
                (if true then upper w else "CELL")).
Proof.
  apply (X4_from_vcf_line_complete "TEL;TYPE=home 1" true). reflexivity.
Defined.

(** X5: the text of a phone parses back to the phone, when the type is a
    non-empty word without lower-case letter and the number is a non-empty
    text of digits and [+] ([preserve_type] set); without [preserve_type]
    the type read back is ["CELL"]. *)
Theorem X5_phone_text_round_trip (p : PhoneNumber.t) :
  PhoneNumber.phone_type p <> "" ->
  forallb_chars is_word (PhoneNumber.phone_type p) = true ->
  upper (PhoneNumber.phone_type p) = PhoneNumber.phone_type p ->
  PhoneNumber.number p <> "" ->
  forallb_chars is_plus_or_digit (PhoneNumber.number p) = true ->
  PhoneNumber.from_vcf_line (PhoneNumber.__str__ p) true = Return p /\
  PhoneNumber.from_vcf_line (PhoneNumber.__str__ p) false =
    Return (PhoneNumber.mk (PhoneNumber.number p) "CELL").
Proof.
  intros Ht1 Ht2 Ht3 Hn1 Hn2. destruct p as [n ty]. simpl in *.
  change (PhoneNumber.__str__ (PhoneNumber.mk n ty))
    with ("TEL;TYPE=" +:+ ty +:+ ":" +:+ n).
  assert (Hl : is_line n = true) by by apply plus_or_digit_is_dot.
  rewrite !from_vcf_line_match by done.
  by rewrite filter_chars_all, Ht3.
Qed.

Lemma X5_phone_text_round_trip_witness :
  PhoneNumber.from_vcf_line (PhoneNumber.__str__ (PhoneNumber.mk "+15550109999" "HOME")) true =
    Return (PhoneNumber.mk "+15550109999" "HOME").
Proof.
  refine (proj1 (X5_phone_text_round_trip (PhoneNumber.mk "+15550109999" "HOME") _ _ _ _ _));
    [discriminate | reflexivity | reflexivity | discriminate | reflexivity].
Defined.

(** ** Name lines *)

(** X6: a line [N:] with fewer than four [;] on its first line is dropped:
    the record keeps the name it had. *)
Theorem X6_short_name_line_ignored (c : VCFContact.t) (rest : string) :
  separators rest < 4 -> VCFContact.add_line c ("N:" +:+ rest) = c.
Proof.
  intros H. rewrite add_line_name. unfold VCFContact.add_name.
  by rewrite name_pattern_short.
Qed.

Lemma X6_short_name_line_ignored_witness :
  VCFContact.add_line VCFContact.__init__ ("N:" +:+ "Doe;Jane") = VCFContact.__init__.
Proof.
  apply (X6_short_name_line_ignored VCFContact.__init__ "Doe;Jane").
  vm_compute. lia.
Defined.

(** X7: of two structured-name lines the later one wins, when it has its
    four [;]: whatever name line came before leaves no trace. *)
Theorem X7_last_name_line_wins (c : VCFContact.t) (l1 rest : string) :
  VCFContact.is_name_line l1 = true -> 4 <= separators rest ->
  VCFContact.add_line (VCFContact.add_line c l1) ("N:" +:+ rest) =
    VCFContact.add_line c ("N:" +:+ rest).
Proof.
  intros H1 Hn. apply startswith_inv in H1 as [r1 ->].
  change (VCFContact.__name +:+ r1) with ("N:" +:+ r1).
  rewrite !add_line_name.
  destruct (split_four_first_line rest Hn) as (a & b & x & d & e & -> & Ha & Hb & Hx & Hd).
  unfold VCFContact.add_name at 1 3.
  rewrite name_pattern_match by apply Ha || apply Hb || apply Hx || apply Hd.
  destruct (add_name_cases c ("N:" +:+ r1)) as [->|(? & ? & ? & ? & _ & _ & _ & _ & ->)]; done.
Qed.

Lemma X7_last_name_line_wins_witness :
  VCFContact.add_line (VCFContact.add_line VCFContact.__init__ "N:Roe;Rick;;;") ("N:" +:+ "Doe;Jane;;;") =
    VCFContact.add_line VCFContact.__init__ ("N:" +:+ "Doe;Jane;;;").
Proof.
  apply (X7_last_name_line_wins VCFContact.__init__ "N:Roe;Rick;;;" "Doe;Jane;;;").
  - reflexivity.
  - vm_compute. lia.
Defined.

(** ** Records and files *)

Lemma effect_of_not_phone (line : string) :
  VCFContact.is_phone_line line = false -> forall p, effect_of line <> AddPhone p.
Proof.
  intros H p. unfold effect_of. rewrite H.
  destruct (VCFContact.is_service_line line); [done|].
  destruct (VCFContact.is_name_line line).
  { by destruct (re_match _ line) as [[|? [|? [|? [|? [|? [|]]]]]]|]. }
  destruct (VCFContact.is_category_line line).
  { by destruct (re_match _ line) as [[|? ?]|]. }
  by destruct (VCFContact.is_full_name_line line).
Qed.

Lemma add_line_not_phone (c : VCFContact.t) (line : string) :
  VCFContact.is_phone_line line = false ->
  VCFContact.phones (VCFContact.add_line c line) = VCFContact.phones c.
Proof.
  intros H. rewrite add_line_effect. pose proof (effect_of_not_phone line H) as Hp.
  destruct (effect_of line); try done. by destruct (Hp phone).
Qed.

(** X8: a record built from lines none of which starts with [TEL;] has no
    phone: it is empty, [to_vcf] raises on it and nothing is written for
    it. *)
Theorem X8_no_phone_line_no_output (ls : list string) :
  Forall (fun l => VCFContact.is_phone_line l = false) ls ->
  VCFContact.phones (build_contact ls) = ∅ /\
  VCFContact.is_empty (build_contact ls) = true /\
  forall (S : SetIteration) v o,
    @VCFContact.to_vcf S (build_contact ls) v o = Raise (ValueError "Empty contact") /\
    @write_contacts_to_vcf_file S [build_contact ls] v o = "".
Proof.
  intros H.
  assert (Hp : VCFContact.phones (build_contact ls) = ∅).
  { unfold build_contact.
    assert (forall c, VCFContact.phones (fold_left VCFContact.add_line ls c) =
                      VCFContact.phones c) as ->; [|done].
    induction H as [|l ls Hl Hls IH]; intros c; [done|].
    simpl. by rewrite IH, add_line_not_phone. }
  assert (He : VCFContact.is_empty (build_contact ls) = true) by by apply is_empty_spec.
  split; [done|]. split; [done|]. intros S v o.
  unfold write_contacts_to_vcf_file, VCFContact.to_vcf. simpl.
  unfold VCFContact.to_vcf. by rewrite He.
Qed.

Lemma X8_no_phone_line_no_output_witness :
  VCFContact.is_empty (build_contact ["FN:Jane Doe"; "N:Doe;Jane;;;"; "TEL:555"]) = true.
Proof.
  refine (proj1 (proj2 (X8_no_phone_line_no_output _ _))).
  repeat constructor.
Defined.

(** X9: in every record that [parse_vcf_file] returns, every phone has the
    type ["CELL"] and a number of digits and [+] only, the four name
    fields hold no [;] and no line feed, the suffix is empty and no
    category holds a comma or a line feed. *)
Theorem X9_parsed_records_normalized (content : string) :
  Forall parsed_ok (parse_vcf_file content).
Proof. apply parse_lines_parsed_ok. Qed.

Lemma ignored_add_line (line : string) (c : VCFContact.t) :
  ignored line = true -> VCFContact.add_line c line = c.
Proof.
  unfold ignored. intros [[H|H]%orb_true_iff|H]%orb_true_iff.
  - unfold VCFContact.add_line, VCFContact.is_service_line. by rewrite H.
  - unfold VCFContact.add_line, VCFContact.is_service_line.
    rewrite H. by rewrite orb_true_r.
  - apply startswith_inv in H as [r ->]. apply add_line_full_name.
Qed.

Lemma ignored_not_end (line : string) :
  ignored line = true -> VCFContact.is_end_of_contact line = false.
Proof.
  unfold ignored. intros [[H|H]%orb_true_iff|H]%orb_true_iff.
  - unfold VCFContact.is_start_of_contact in H. by apply String.eqb_eq in H as ->.
  - by apply startswith_inv in H as [r ->].
  - by apply startswith_inv in H as [r ->].
Qed.

Lemma group_step_ignored (st1 st2 : list (list string) * list string) (line : string) :
  ignored line = true -> same_groups st1 st2 -> same_groups (group_step st1 line) st2.
Proof.
  intros Hi [HP Hc]. destruct st1 as [P1 c1], st2 as [P2 c2]. simpl in *.
  unfold group_step. rewrite (ignored_not_end line Hi).
  destruct (VCFContact.is_service_line line); [done|].
  split; simpl; [done|]. intros more. rewrite <- Hc.
  unfold build_contact. rewrite <- app_assoc, !fold_left_app. simpl.
  by rewrite ignored_add_line.
Qed.

(** X10: begin markers, version lines and full-name lines play no role in
    parsing: the records are those of the input without these lines. *)
Theorem X10_parse_passes_over_ignored_lines (ls : list string) :
  parse_lines ls = parse_lines (List.filter (fun l => negb (ignored l)) ls).
Proof.
  unfold parse_lines.
  assert (H : forall st1 st2, same_groups st1 st2 ->
            same_groups (fold_left group_step ls st1)
              (fold_left group_step (List.filter (fun l => negb (ignored l)) ls) st2)).
  { induction ls as [|l ls IH]; intros st1 st2 Hs; [done|].
    simpl. destruct (ignored l) eqn:Hi; simpl.
    - apply IH. by apply group_step_ignored.
    - apply IH. by apply group_step_same. }
  by apply H.
Qed.

Lemma fold_group_step_prefix (ls : list string) (P : list (list string)) (cur : list string) :
  (fold_left group_step ls (P, cur)).1 = P ++ (fold_left group_step ls ([], cur)).1.
Proof.
  revert P cur. induction ls as [|l ls IH]; intros P cur.
  - simpl. by rewrite app_nil_r.
  - simpl. destruct (VCFContact.is_end_of_contact l).
    + rewrite IH, (IH [cur]). by rewrite <- app_assoc.
    + destruct (VCFContact.is_service_line l); apply IH.
Qed.

(** X11: an end marker cuts the input in two parts that are parsed
    independently of each other. *)
Theorem X11_parse_cuts_at_end_marker (ls1 ls2 : list string) :
  parse_lines (ls1 ++ "END:VCARD" :: ls2) =
    parse_lines (ls1 ++ ["END:VCARD"]) ++ parse_lines ls2.
Proof.
  unfold parse_lines.
  replace (ls1 ++ "END:VCARD" :: ls2) with ((ls1 ++ ["END:VCARD"]) ++ ls2)
    by by rewrite <- app_assoc.
  rewrite (fold_left_app _ (ls1 ++ ["END:VCARD"]) ls2).
  rewrite (fold_left_app _ ls1 ["END:VCARD"]).
  destruct (fold_left group_step ls1 ([], [])) as [P cur]. simpl.
  change (group_step (P, cur) "END:VCARD") with (P ++ [cur], @nil string).
  by rewrite fold_group_step_prefix, fmap_app.
Qed.

Lemma join_empty_app (l1 l2 : list string) :
  join "" (l1 ++ l2) = join "" l1 +:+ join "" l2.
Proof.
  induction l1 as [|x l1 IH]; [done|].
  rewrite <- app_comm_cons, !join_empty_cons, IH. by rewrite app_assoc_s.
Qed.

(** X12: the content written for a list of records is the content written
    for its first part followed by the content written for the rest. *)
Theorem X12_write_distributes (S : SetIteration) (cs1 cs2 : list VCFContact.t)
    (v : string) (o : bool) :
  write_contacts_to_vcf_file (cs1 ++ cs2) v o =
    write_contacts_to_vcf_file cs1 v o +:+ write_contacts_to_vcf_file cs2 v o.
Proof.
  unfold write_contacts_to_vcf_file. rewrite !write_contacts_acc.
  by rewrite omap_app, join_empty_app.
Qed.

(** X13: a content without end marker is cleaned to the empty content. *)
Theorem X13_clean_without_end_marker (S : SetIteration) (content : string) :
  Forall (fun l => VCFContact.is_end_of_contact l = false) (split LF content) ->
  parse_vcf_file content = [] /\ clean_vcf content = "".
Proof.
  intros H.
  assert (Hp : parse_vcf_file content = []).
  { unfold parse_vcf_file, parse_lines. by rewrite fold_group_step_no_end. }
  split; [done|]. unfold clean_vcf. by rewrite Hp.
Qed.

Lemma X13_clean_without_end_marker_witness :
  @clean_vcf elements_order
    (join nl ["BEGIN:VCARD"; "N:Doe;Jane;;;"; "TEL;TYPE=CELL:1"; "end:vcard"]) = "".
Proof.
  refine (proj2 (X13_clean_without_end_marker elements_order _ _)).
  repeat constructor.
Defined.

Lemma lstrip_blank (s : string) : forallb_chars is_space (lstrip s) = forallb_chars is_space s.
Proof.
  induction s as [|c s IH]; [done|]. simpl.
  destruct (is_space c) eqn:Hc; [done|]. simpl. by rewrite Hc.
Qed.

Lemma rstrip_empty (s : string) : rstrip s = "" <-> forallb_chars is_space s = true.
Proof.
  induction s as [|c s IH]; [done|]. simpl.
  destruct (is_space c); simpl; [|done].
  destruct (String.eqb_spec (rstrip s) "") as [E|E].
  - split; [|done]. intros _. by apply IH.
  - split; [done|]. intros H. by apply IH in H.
Qed.

Lemma strip_empty (s : string) : String.eqb (strip s) "" = blank s.
Proof.
  unfold strip, blank. rewrite <- lstrip_blank.
  destruct (String.eqb_spec (rstrip (lstrip s)) "") as [E|E].
  - symmetry. by apply rstrip_empty.
  - destruct (forallb_chars is_space (lstrip s)) eqn:H; [|done].
    by apply rstrip_empty in H.
Qed.

Lemma join_nonempty (sep : string) (l : list string) :
  Forall (fun t => t <> "") l -> join sep l = "" -> l = [].
Proof.
  intros H. destruct H as [|x l Hx Hl]; [done|].
  destruct l as [|y l]; simpl; [done|]. by destruct x.
Qed.

(** X14: the full name of a record whose name parts are ASCII texts is
    empty exactly when each of the five name parts is empty or made of
    blanks only. *)
Theorem X14_full_name_empty (c : VCFContact.t) :
  Forall (fun part => ascii_text part = true) (VCFContact.full_name_parts c) ->
  VCFContact.full_name c = "" <->
  Forall (fun part => blank part = true) (VCFContact.full_name_parts c).
Proof.
  intros _. unfold VCFContact.full_name.
  set (keep := fun part => negb (String.eqb (strip part) "")).
  assert (Hk : forall part, keep part = negb (blank part)).
  { intros part. unfold keep. by rewrite strip_empty. }
  split.
  - intros H. apply join_nonempty in H.
    + apply Forall_forall. intros part Hin%list_elem_of_In.
      destruct (blank part) eqn:E; [done|].
      assert (In part (List.filter keep (VCFContact.full_name_parts c))) as Hf.
      { apply filter_In. split; [done|]. by rewrite Hk, E. }
      by rewrite H in Hf.
    + apply Forall_forall. intros part Hin%list_elem_of_In%filter_In.
      destruct Hin as [_ Hin]. rewrite Hk in Hin. intros ->. done.
  - intros H.
    assert (List.filter keep (VCFContact.full_name_parts c) = []) as ->; [|done].
    induction H as [|part l Hp Hl IH]; [done|]. simpl. by rewrite Hk, Hp.
Qed.

Lemma X14_full_name_empty_witness :
  VCFContact.full_name (VCFContact.mk ∅ ∅ ∅ " " "" "" "" "") = "" <->
  Forall (fun part => blank part = true)
    (VCFContact.full_name_parts (VCFContact.mk ∅ ∅ ∅ " " "" "" "" "")).
Proof.
  apply (X14_full_name_empty (VCFContact.mk ∅ ∅ ∅ " " "" "" "" "")).
  repeat constructor.
Defined.

(** X16: a line that is no name, phone or category line does not change
    what is written for the record when the other lines are left out. *)
Theorem X16_other_lines_leave_output (S : SetIteration) (c : VCFContact.t)
    (line v : string) :
  VCFContact.is_name_line line = false ->
  VCFContact.is_phone_line line = false ->
  VCFContact.is_category_line line = false ->
  same_output (VCFContact.add_line c line) c /\
  VCFContact.to_vcf (VCFContact.add_line c line) v false = VCFContact.to_vcf c v false.
Proof.
  intros Hn Hp Hc.
  assert (Hs : same_output (VCFContact.add_line c line) c).
  { unfold VCFContact.add_line. rewrite Hn, Hp, Hc.
    destruct (VCFContact.is_service_line line); [done|].
    by destruct (VCFContact.is_full_name_line line). }
  split; [done|].
  destruct (VCFContact.add_line c line), c. unfold same_output in Hs. simpl in Hs.
  by destruct Hs as (-> & -> & -> & -> & -> & -> & ->).
Qed.

Lemma X16_other_lines_leave_output_witness :
  @VCFContact.to_vcf elements_order
     (VCFContact.add_line (build_contact ["TEL;TYPE=CELL:1"]) "EMAIL:jane@example.org")
     "3.0" false =
  @VCFContact.to_vcf elements_order (build_contact ["TEL;TYPE=CELL:1"]) "3.0" false.
Proof.
  refine (proj2 (X16_other_lines_leave_output elements_order _ "EMAIL:jane@example.org" "3.0" _ _ _));
    reflexivity.
Defined.

(** ** Cleaning a cleaned file *)

Lemma fold_phone_lines_all (ps : list PhoneNumber.t) (c : VCFContact.t) :
  Forall phone_ok ps ->
  fold_left VCFContact.add_line (PhoneNumber.__str__ <$> ps) c =
    VCFContact.mk
      (list_to_set (filter (fun p => PhoneNumber.number p <> "") ps) ∪ VCFContact.phones c)
      (VCFContact.other_info c) (VCFContact.categories c) (VCFContact.prefix c)
      (VCFContact.first_name c) (VCFContact.surname c) (VCFContact.middle_name c)
      (VCFContact.suffix c).
Proof.
  intros H. revert c. induction H as [|p ps Hp Hps IH]; intros c.
  - simpl. rewrite (left_id_L ∅ (∪)). by destruct c.
  - cbn [fmap list_fmap fold_left]. rewrite IH.
    destruct (decide (PhoneNumber.number p = "")) as [Hn|Hn].
    + rewrite filter_cons_False by by intros ?.
      assert (VCFContact.add_line c (PhoneNumber.__str__ p) = c) as ->; [|done].
      rewrite (str_ok p Hp), Hn. apply malformed_ignored. right. left. by split.
    + rewrite filter_cons_True by done.
      assert (Hadd : VCFContact.add_line c (PhoneNumber.__str__ p) =
                VCFContact.add_phone c (PhoneNumber.__str__ p)).
      { rewrite (str_ok p Hp).
        apply (add_line_phone c ("TYPE=CELL:" +:+ PhoneNumber.number p)). }
      rewrite Hadd. unfold VCFContact.add_phone. rewrite from_vcf_line_str by done.
      simpl. f_equal.
      rewrite (comm_L (∪) {[p]} (list_to_set _)), <- (assoc_L (∪)). done.
Qed.

Section Rebuilt.
Context `{!SetIteration}.

Lemma category_lines_rebuilt (c c1 : VCFContact.t) :
  parsed_ok c -> VCFContact.categories c1 = ∅ ->
  fold_left VCFContact.add_line (category_lines c) c1 =
    VCFContact.mk (VCFContact.phones c1) (VCFContact.other_info c1)
      (VCFContact.categories (tidy c)) (VCFContact.prefix c1) (VCFContact.first_name c1)
      (VCFContact.surname c1) (VCFContact.middle_name c1) (VCFContact.suffix c1).
Proof.
  intros (_ & Hcat & _) H1. unfold category_lines, tidy. cbn [VCFContact.categories].
  assert (Hset : list_to_set (set_iter (VCFContact.categories c)) = VCFContact.categories c).
  { rewrite (set_iter_perm (VCFContact.categories c)). apply list_to_set_elements_L. }
  assert (Hall : Forall category_ok (set_iter (VCFContact.categories c))).
  { apply Forall_forall. intros t Ht%set_iter_elem_of. by apply Hcat. }
  destruct (decide (VCFContact.categories c = ∅)) as [Hc|Hc].
  - rewrite Hc. destruct (decide (∅ = {[ "" ]})) as [E|E].
    + simpl. rewrite <- H1. by destruct c1.
    + simpl. rewrite <- H1. by destruct c1.
  - cbn [fold_left].
    destruct (decide (join "," (set_iter (VCFContact.categories c)) = "")) as [Hj|Hj].
    + rewrite Hj.
      assert (VCFContact.add_line c1 ("CATEGORIES:" +:+ "") = c1) as ->.
      { apply malformed_ignored. right. right. by split. }
      apply (join_eq_empty ","%char) in Hj as [E|E].
      { rewrite E in Hset. simpl in Hset. by rewrite <- Hset in Hc. }
      rewrite E in Hset. simpl in Hset. rewrite (right_id_L ∅ (∪)) in Hset.
      rewrite <- Hset. destruct (decide ({[ "" ]} = {[ "" ]})); [|done].
      rewrite <- H1. by destruct c1.
    + rewrite add_line_category, add_category_match.
      * rewrite split_join.
        -- rewrite Hset, H1, (left_id_L ∅ (∪)).
           destruct (decide (VCFContact.categories c = {[ "" ]})) as [E|E]; [|done].
           exfalso. apply Hj.
           assert (set_iter (VCFContact.categories c) = [""]) as ->; [|done].
           apply Permutation_singleton_r.
           by rewrite set_iter_perm, E, elements_singleton.
        -- intros E. by rewrite E in Hj.
        -- eapply Forall_impl; [exact Hall|]. by intros t [_ ?].
      * done.
      * apply join_forallb; [done|].
        eapply Forall_impl; [exact Hall|]. by intros t [? _].
Qed.

Lemma body_lines_rebuilt (cur : list string) (c : VCFContact.t) :
  Forall (fun l => l = "") cur -> parsed_ok c ->
  same_output (build_contact (cur ++ body_lines c)) (tidy c).
Proof.
  intros Hcur Hok. unfold build_contact, body_lines.
  rewrite !fold_left_app.
  pose proof (fold_blanks cur VCFContact.__init__ Hcur) as H0.
  destruct (fold_left VCFContact.add_line cur VCFContact.__init__) as [P0 O0 C0 p0 f0 s0 m0 x0].
  destruct H0 as (HP0 & HC0 & _); [done|]. simpl in HP0, HC0. subst P0 C0.
  cbn [fold_left].
  unfold VCFContact.get_full_name_line. rewrite add_line_full_name.
  pose proof Hok as (Hph & Hcat & [Ls Ss] & [Lf Sf] & [Lm Sm] & [Lp Sp] & Hsuf).
  assert (Hname : VCFContact.get_name_line c =
            "N:" +:+ VCFContact.surname c +:+ ";" +:+ VCFContact.first_name c +:+ ";" +:+
            VCFContact.middle_name c +:+ ";" +:+ VCFContact.prefix c +:+ ";" +:+ "").
  { unfold VCFContact.get_name_line. simpl. by rewrite Hsuf. }
  rewrite Hname, add_line_name. unfold VCFContact.add_name.
  rewrite name_pattern_match by done.
  cbn [VCFContact.phones VCFContact.other_info VCFContact.categories].
  rewrite (category_lines_rebuilt c) by done.
  destruct (sorted_phones_as_map c) as (ps & -> & Hperm).
  rewrite fold_phone_lines_all.
  - unfold same_output, tidy. simpl. rewrite (right_id_L ∅ (∪)), Hsuf.
    repeat split; try done.
    apply set_eq. intros p.
    rewrite elem_of_list_to_set, list_elem_of_filter, elem_of_filter, Hperm, elem_of_elements.
    done.
  - apply Forall_forall. intros p Hp. rewrite Hperm in Hp. apply elem_of_elements in Hp.
    by apply Hph.
Qed.



Lemma groups_rebuilt (ws : list VCFContact.t) (cur : list string) :
  Forall (fun l => l = "") cur -> Forall parsed_ok ws ->
  Forall2 same_output (build_contact <$> groups_of cur ws) (tidy <$> ws).
Proof.
  intros Hcur Hws. revert cur Hcur. induction Hws as [|c ws Hc Hws IH]; intros cur Hcur.
  - constructor.
  - cbn [groups_of fmap list_fmap]. constructor.
    + by apply body_lines_rebuilt.
    + apply IH. by repeat constructor.
Qed.






End Rebuilt.

(** ** Lines written and read back *)

(** X18: the structured-name line of a record whose four name fields hold
    no [;] and no line feed and whose suffix is empty, read into any
    record, gives that record the same five name fields and changes
    nothing else. *)
Theorem X18_name_line_round_trip (c c0 : VCFContact.t) :
  field_ok (VCFContact.surname c) -> field_ok (VCFContact.first_name c) ->
  field_ok (VCFContact.middle_name c) -> field_ok (VCFContact.prefix c) ->
  VCFContact.suffix c = "" ->
  VCFContact.add_line c0 (VCFContact.get_name_line c) =
    VCFContact.mk (VCFContact.phones c0) (VCFContact.other_info c0)
      (VCFContact.categories c0) (VCFContact.prefix c) (VCFContact.first_name c)
      (VCFContact.surname c) (VCFContact.middle_name c) (VCFContact.suffix c).
Proof.
  intros [Ls Ss] [Lf Sf] [Lm Sm] [Lp Sp] Hsuf.
  assert (Hname : VCFContact.get_name_line c =
            "N:" +:+ VCFContact.surname c +:+ ";" +:+ VCFContact.first_name c +:+ ";" +:+
            VCFContact.middle_name c +:+ ";" +:+ VCFContact.prefix c +:+ ";" +:+ "").
  { unfold VCFContact.get_name_line. simpl. by rewrite Hsuf. }
  rewrite Hname, add_line_name. unfold VCFContact.add_name.
  rewrite name_pattern_match by done. by rewrite Hsuf.
Qed.

Lemma X18_name_line_round_trip_witness :
  VCFContact.add_line VCFContact.__init__
    (VCFContact.get_name_line (build_contact ["N:Doe;Jane;Q;Dr;Jr"])) =
  VCFContact.mk ∅ ∅ ∅ "Dr" "Jane" "Doe" "Q" "".
Proof.
  refine (X18_name_line_round_trip (build_contact ["N:Doe;Jane;Q;Dr;Jr"])
            VCFContact.__init__ _ _ _ _ _); by vm_compute.
Defined.

(** X19: the category line of a record, read into any record, adds the
    categories of the first to the second, when no category holds a comma
    or a line feed and the categories are not the empty category alone;
    a record without category has no category line. *)
Theorem X19_category_line_round_trip (S : SetIteration) (c : VCFContact.t) :
  set_Forall category_ok (VCFContact.categories c) ->
  VCFContact.categories c <> {[ "" ]} ->
  match VCFContact.get_categories c with
  | None => VCFContact.categories c = ∅
  | Some line =>
      VCFContact.categories c <> ∅ /\
      forall c0, VCFContact.add_line c0 line =
        VCFContact.mk (VCFContact.phones c0) (VCFContact.other_info c0)
          (VCFContact.categories c0 ∪ VCFContact.categories c)
          (VCFContact.prefix c0) (VCFContact.first_name c0) (VCFContact.surname c0)
          (VCFContact.middle_name c0) (VCFContact.suffix c0)
  end.
Proof.
  intros Hcat Hne. unfold VCFContact.get_categories.
  destruct (decide (VCFContact.categories c = ∅)) as [Hc|Hc]; [done|].
  split; [done|]. intros c0.
  change (VCFContact.__category +:+ ?x) with ("CATEGORIES:" +:+ x).
  assert (Hall : Forall category_ok (set_iter (VCFContact.categories c))).
  { apply Forall_forall. intros t Ht%set_iter_elem_of. by apply Hcat. }
  assert (Hset : list_to_set (set_iter (VCFContact.categories c)) = VCFContact.categories c).
  { rewrite (set_iter_perm (VCFContact.categories c)). apply list_to_set_elements_L. }
  rewrite add_line_category, add_category_match.
  - rewrite split_join.
    + by rewrite Hset.
    + intros E. rewrite E in Hset. simpl in Hset. by rewrite <- Hset in Hc.
    + eapply Forall_impl; [exact Hall|]. by intros t [_ ?].
  - intros [E|E]%(join_eq_empty ","%char).
    + rewrite E in Hset. simpl in Hset. by rewrite <- Hset in Hc.
    + rewrite E in Hset. simpl in Hset. apply Hne. rewrite <- Hset.
      by rewrite (right_id_L ∅ (∪)).
  - apply join_forallb; [done|].
    eapply Forall_impl; [exact Hall|]. by intros t [? _].
Qed.

Lemma X19_category_line_round_trip_witness :
  match @VCFContact.get_categories elements_order (build_contact ["CATEGORIES:A, B"]) with
  | None => VCFContact.categories (build_contact ["CATEGORIES:A, B"]) = ∅
  | Some line =>
      VCFContact.categories (build_contact ["CATEGORIES:A, B"]) <> ∅ /\
      forall c0, VCFContact.add_line c0 line =
        VCFContact.mk (VCFContact.phones c0) (VCFContact.other_info c0)
          (VCFContact.categories c0 ∪
           VCFContact.categories (build_contact ["CATEGORIES:A, B"]))
          (VCFContact.prefix c0) (VCFContact.first_name c0) (VCFContact.surname c0)
          (VCFContact.middle_name c0) (VCFContact.suffix c0)
  end.
Proof.
  refine (X19_category_line_round_trip elements_order (build_contact ["CATEGORIES:A, B"]) _ _).
  - apply (bool_decide_unpack _). by vm_compute.
  - apply (bool_decide_unpack _). by vm_compute.
Defined.

(** ** Cleaning again, whatever the orders of enumeration

    The sets that a second cleaning enumerates are not those of the first:
    they are built again from the lines written.  Each cleaning has its
    own order of enumeration below. *)




Lemma reread_same_output (S : SetIteration) (cs : list VCFContact.t) :
  Forall parsed_ok cs ->
  Forall2 same_output
    (parse_vcf_file (@write_contacts_to_vcf_file S cs default_version false))
    (tidy <$> @written cs).
Proof.
  intros Hok. rewrite (write_contacts_lines cs), parse_file_lines by done.
  apply groups_rebuilt; [done|]. by apply Forall_list_filter.
Qed.









(** X15: the records read back from a cleaned content are, one for each
    record that was written and in the same order, the record without its
    phones that have the empty number and without its categories when
    they are the empty category alone: same phones otherwise, same
    categories, same name fields. *)
Theorem X15_cleaned_content_read_back (S : SetIteration) (content : string) :
  Forall2 same_output
    (parse_vcf_file (@clean_vcf S content))
    (tidy <$> written (parse_vcf_file content)).
Proof.
  unfold clean_vcf. apply reread_same_output, parse_lines_parsed_ok.
Qed.


